(** * bivvy: the pip launcher ([dist/pip/bivvy/__init__.py])

    A shallow embedding of the self-installing launcher: platform
    resolution, artifact URL, download and extraction into the cache
    directory, and the hand-over to the cached binary.

    The Python module works on three pieces of ambient state: the host
    (platform strings, [sys.platform], [sys.argv], the location of the
    module), the network, and the file system.  The host and the network
    are read-only and collected in [Host]; the file system and the
    observable actions (prints, fetches, extractions, child processes) are
    threaded through a state-and-exception monad [Py].

    The library calls follow CPython 3.11 on the paths the launcher takes:
    [tarfile] without an extraction filter, a gzip reader over the HTTP
    response, which cannot seek, and [sys.exit] as the process ends. *)

From Stdlib Require Import ZArith Ascii String.
From stdpp Require Import gmap strings list fin_maps.

Open Scope string_scope.
Open Scope Z_scope.
Open Scope list_scope.

(** ** Python strings *)

Module PyStr.

(** [str.lower] on the ASCII range: the capitals A..Z move down by 32,
    every other character stays.  Strings are strings of bytes here; the
    names the host reports and the keys of the tables are ASCII. *)
Definition lower_ascii (c : ascii) : ascii :=
  let n := nat_of_ascii c in
  if ((65 <=? n) && (n <=? 90))%nat then ascii_of_nat (n + 32) else c.

Fixpoint lower (s : string) : string :=
  match s with
  | EmptyString => EmptyString
  | String c s' => String (lower_ascii c) (lower s')
  end.

(** Truthiness of an [Optional[str]]: [None] and the empty string are
    false. *)
Definition truthy (o : option string) : bool :=
  match o with
  | Some s => negb (String.eqb s "")
  | None => false
  end.

(** What an f-string prints for an [Optional[str]]. *)
Definition fmt (o : option string) : string :=
  match o with
  | Some s => s
  | None => "None"
  end.

(** [needle in hay]. *)
Fixpoint prefix_of (p s : string) : bool :=
  match p, s with
  | EmptyString, _ => true
  | String a p', String b s' => Ascii.eqb a b && prefix_of p' s'
  | String _ _, EmptyString => false
  end.

Fixpoint contains (needle hay : string) : bool :=
  prefix_of needle hay ||
  match hay with
  | EmptyString => false
  | String _ hay' => contains needle hay'
  end.

End PyStr.

(** ** Exceptions *)

Inductive Exn : Type :=
  | RuntimeError (msg : string)
  | URLError (reason : string)
  | HTTPError (code : Z)
  | ReadError
  | FileExistsError (path : string)
  | FileNotFoundError (path : string)
  | IsADirectoryError (path : string)
  | PermissionError (path : string)
  | SystemExit (code : Z)
  | EOFError
  | UnsupportedOperation.

(** ** The host *)

(** The file system: a map from paths to directories and regular files
    with their content and the permission bits last set on them (of which
    Windows keeps the write bit only).  It has no links, fifos or devices,
    and the permission bits of directories are not kept. *)
Inductive Node : Type :=
  | Dir
  | File (image : string) (perm : Z).

(** The type of an archive entry, as [tarfile] names them; [REGTYPE]
    stands for every type it extracts as a regular file. *)
Inductive EntryType : Type :=
  | REGTYPE | DIRTYPE | SYMTYPE | LNKTYPE | FIFOTYPE | CHRTYPE | BLKTYPE.

(** One member of a tar archive, as far as the launcher and [tar.extract]
    look at it.  [buffered] tells where the member sits in the stream: the
    archive is read from the HTTP response through a gzip reader, and
    [getmembers] reads it to its end before anything is extracted, so the
    data of a member can only be read again while the place where it starts
    is still in the reader's buffer, which holds the last few kilobytes of
    the stream. *)
Record TarInfo : Type := mkTarInfo {
  name : string;
  mode : Z;
  data : string;
  type_ : EntryType;
  linkname : string;
  buffered : bool
}.

(** What comes back from the release server: a gzip-compressed tar
    archive, bytes [tarfile.open] cannot read, or an archive cut short. *)
Inductive Body : Type :=
  | GzipTar (members : list TarInfo)
  | Garbage
  | Truncated.

(** The host.  [make_special] is what the extraction of a link, fifo or
    device entry does on it: the file system of this development has none
    of them, so that effect is not described here; it is whatever this
    function says, which may raise and may change any path. *)
Record Host : Type := mkHost {
  sys_platform : string;                (* sys.platform *)
  platform_system : string;             (* platform.system() *)
  platform_machine : string;            (* platform.machine() *)
  argv : list string;                   (* sys.argv *)
  module_dir : string;                  (* Path(__file__).parent *)
  urlopen : string -> Exn + Body;       (* urllib.request.urlopen *)
  child : string -> list string -> Z;   (* exit code of a program image on arguments *)
  superuser : bool;                     (* os.geteuid() == 0 *)
  make_special :                        (* tarfile's makelink, makefifo, makedev *)
    TarInfo -> string -> gmap string Node -> (Exn + unit) * gmap string Node
}.

(** ** Module constants *)

Definition __version__ : string := "1.0.1".
Definition GITHUB_REPO : string := "bivvy-dev/bivvy".

Definition is_win32 (h : Host) : bool := String.eqb (sys_platform h) "win32".

(** [pathlib]'s [/] with a plain relative name on the right. *)
Definition path_sep (h : Host) : string := if is_win32 h then "\" else "/".
Definition path_join (h : Host) (dir leaf : string) : string :=
  dir +:+ path_sep h +:+ leaf.

Definition BINARY_DIR (h : Host) : string := path_join h (module_dir h) "bin".
Definition BINARY_NAME (h : Host) : string :=
  if is_win32 h then "bivvy.exe" else "bivvy".
Definition BINARY_PATH (h : Host) : string :=
  path_join h (BINARY_DIR h) (BINARY_NAME h).

(** ** get_platform *)

Definition os_map : gmap string string :=
  <["darwin" := "darwin"]> (<["linux" := "linux"]> (<["windows" := "windows"]> ∅)).

Definition arch_map : gmap string string :=
  <["x86_64" := "x64"]> (<["amd64" := "x64"]>
    (<["arm64" := "arm64"]> (<["aarch64" := "arm64"]> ∅))).

Definition get_platform (h : Host) : Exn + string :=
  let system := PyStr.lower (platform_system h) in
  let machine := PyStr.lower (platform_machine h) in
  let os_name := os_map !! system in
  let arch_name := arch_map !! machine in
  if negb (PyStr.truthy os_name) || negb (PyStr.truthy arch_name)
  then inl (RuntimeError ("Unsupported platform: " +:+ system +:+ "-" +:+ machine))
  else inr (PyStr.fmt os_name +:+ "-" +:+ PyStr.fmt arch_name).

(** ** The file system, the observable actions and the [Py] monad *)

Inductive Event : Type :=
  | Stdout (line : string)
  | Fetch (url : string)
  | Unpack (path : string) (image : string)
  | Chmod (path : string) (perm : Z)
  | Spawn (cmd : list string).

(** A computation starts from a file system and ends with a value or a
    raised exception, the file system it leaves behind, and the actions
    it performed, oldest first. *)
Definition Py (A : Type) : Type :=
  gmap string Node -> (Exn + A) * gmap string Node * list Event.

Definition ret {A} (a : A) : Py A := fun fs => (inr a, fs, []).
Definition raise {A} (e : Exn) : Py A := fun fs => (inl e, fs, []).
Definition emit (e : Event) : Py unit := fun fs => (inr tt, fs, [e]).

Definition bind {A B} (m : Py A) (k : A -> Py B) : Py B := fun fs =>
  match m fs with
  | (inl e, fs1, t1) => (inl e, fs1, t1)
  | (inr a, fs1, t1) =>
      match k a fs1 with
      | (r, fs2, t2) => (r, fs2, t1 ++ t2)
      end
  end.

Declare Scope py_scope.
Delimit Scope py_scope with py.
Notation "'let!' x ':=' m 'in' k" := (bind m (fun x => k))
  (at level 10, x name, m at level 100, k at level 200) : py_scope.
Notation "m ';;;' k" := (bind m (fun _ => k))
  (at level 100, k at level 200, right associativity) : py_scope.
Open Scope py_scope.

Definition lift {A} (r : Exn + A) : Py A :=
  match r with
  | inl e => raise e
  | inr a => ret a
  end.

(** [for x in xs: body(x)] *)
Fixpoint for_each {A} (xs : list A) (body : A -> Py unit) : Py unit :=
  match xs with
  | [] => ret tt
  | x :: xs' => body x ;;; for_each xs' body
  end.

(** Projections of a run. *)
Definition outcome {A} (r : (Exn + A) * gmap string Node * list Event) : Exn + A :=
  r.1.1.
Definition final_fs {A} (r : (Exn + A) * gmap string Node * list Event) :
  gmap string Node := r.1.2.
Definition events {A} (r : (Exn + A) * gmap string Node * list Event) :
  list Event := r.2.

Definition fetches (t : list Event) : list string :=
  flat_map (fun e => match e with Fetch u => [u] | _ => [] end) t.
Definition spawns (t : list Event) : list (list string) :=
  flat_map (fun e => match e with Spawn c => [c] | _ => [] end) t.
Definition extractions (t : list Event) : list (string * string) :=
  flat_map (fun e => match e with Unpack p i => [(p, i)] | _ => [] end) t.

(** ** The library calls the launcher makes *)

Definition print (line : string) : Py unit := emit (Stdout line).

(** [Path.exists] *)
Definition path_exists (p : string) : Py bool := fun fs =>
  (inr (bool_decide (is_Some (fs !! p))), fs, []).

(** [Path.mkdir(parents=True, exist_ok=True)]; the parent is the
    directory of the module itself, which is there.  A module directory in
    which the process may not create entries is not described. *)
Definition mkdir (p : string) : Py unit := fun fs =>
  match fs !! p with
  | Some (File _ _) => (inl (FileExistsError p), fs, [])
  | Some Dir => (inr tt, fs, [])
  | None => (inr tt, <[p := Dir]> fs, [])
  end.

(** [urllib.request.urlopen] followed by [tarfile.open(mode="r:gz")]. *)
Definition open_url (h : Host) (url : string) : Py Body :=
  emit (Fetch url) ;;; lift (urlopen h url).

Definition tarfile_open (b : Body) : Py (list TarInfo) :=
  match b with
  | GzipTar members => ret members
  | Garbage => raise ReadError
  | Truncated => raise EOFError
  end.

(** [member.name = n] *)
Definition set_name (member : TarInfo) (n : string) : TarInfo :=
  {| name := n; mode := mode member; data := data member;
     type_ := type_ member; linkname := linkname member;
     buffered := buffered member |}.

(** [open(path, "wb")] on a regular file that is there: it needs the write
    bit of the owner (on Windows: the file not to be read-only), unless the
    process is the superuser of a POSIX host. *)
Definition can_overwrite (h : Host) (perm : Z) : bool :=
  Z.testbit perm 7 || (negb (is_win32 h) && superuser h).

(** [tar.extract(member, dir)], by the type of the member; the target is
    [dir/member.name].
    - A regular file ([makefile]): the stream seeks back to the data of the
      member, which fails with [io.UnsupportedOperation] when that is out of
      the buffer; then the target is opened for writing, which fails on a
      directory and on a file that may not be overwritten; then the content
      is written and the permission bits are set to those of the member.
    - A directory ([makedir]): the directory is made; if something is there
      already that is no error, and a regular file there gets the
      permission bits of the member.
    - A link, fifo or device: whatever [make_special] of the host does. *)
Definition tar_extract (h : Host) (member : TarInfo) (dir : string) : Py unit :=
  fun fs =>
    let target := path_join h dir (name member) in
    let written := [Unpack target (data member)] in
    match type_ member with
    | REGTYPE =>
        if negb (buffered member) then (inl UnsupportedOperation, fs, [])
        else
          match fs !! target with
          | Some Dir => (inl (IsADirectoryError target), fs, [])
          | Some (File _ perm) =>
              if can_overwrite h perm
              then (inr tt, <[target := File (data member) (mode member)]> fs, written)
              else (inl (PermissionError target), fs, [])
          | None =>
              (inr tt, <[target := File (data member) (mode member)]> fs, written)
          end
    | DIRTYPE =>
        match fs !! target with
        | None => (inr tt, <[target := Dir]> fs, written)
        | Some Dir => (inr tt, fs, written)
        | Some (File image _) =>
            (inr tt, <[target := File image (mode member)]> fs, written)
        end
    | _ =>
        match make_special h member target fs with
        | (inl e, fs') => (inl e, fs', [])
        | (inr _, fs') => (inr tt, fs', written)
        end
    end.

(** [Path.chmod] *)
Definition chmod (p : string) (bits : Z) : Py unit := fun fs =>
  match fs !! p with
  | None => (inl (FileNotFoundError p), fs, [])
  | Some Dir => (inr tt, fs, [Chmod p bits])
  | Some (File image _) => (inr tt, <[p := File image bits]> fs, [Chmod p bits])
  end.

(** [subprocess.run(cmd, check=False).returncode]: the program must be
    present, and off Windows executable by its owner.  What the child
    itself does to the world is outside this development. *)
Definition subprocess_run (h : Host) (cmd : list string) : Py Z := fun fs =>
  match cmd with
  | [] => (inl (RuntimeError "list index out of range"), fs, [])
  | prog :: args =>
      match fs !! prog with
      | None => (inl (FileNotFoundError prog), fs, [])
      | Some Dir => (inl (PermissionError prog), fs, [])
      | Some (File image perm) =>
          if is_win32 h || Z.testbit perm 6
          then (inr (child h image args), fs, [Spawn cmd])
          else (inl (PermissionError prog), fs, [])
      end
  end.

(** [sys.exit] *)
Definition sys_exit {A} (code : Z) : Py A := raise (SystemExit code).

(** The exit status of the interpreter on a POSIX host, as the parent of
    the launcher reads it, when the module is run as a script and [main]
    ends with [o]: the low eight bits of the argument of [sys.exit] (for an
    argument that fits a C long), 1 for any other exception. *)
Definition posix_exit_status (o : Exn + unit) : Z :=
  match o with
  | inl (SystemExit code) => code mod 256
  | inl _ => 1
  | inr _ => 0
  end.

(** ** download_binary, ensure_binary, main *)

(** The f-string of [download_binary] that names the artifact. *)
Definition artifact_url (plat : string) : string :=
  "https://github.com/" +:+ GITHUB_REPO +:+ "/releases/download/" +:+ __version__
    +:+ "/bivvy-" +:+ plat +:+ ".tar.gz".

(** The body of the loop over [tar.getmembers()]. *)
Definition extract_member (h : Host) (member : TarInfo) : Py unit :=
  if String.eqb (name member) "bivvy"
  then tar_extract h (set_name member (BINARY_NAME h)) (BINARY_DIR h)
  else ret tt.

Definition download_binary (h : Host) : Py unit :=
  let! plat := lift (get_platform h) in
  let url := artifact_url plat in
  print ("Downloading bivvy from " +:+ url) ;;;
  mkdir (BINARY_DIR h) ;;;
  (let! response := open_url h url in
   let! tar := tarfile_open response in
   for_each tar (extract_member h)) ;;;
  (if negb (is_win32 h) then chmod (BINARY_PATH h) 493 else ret tt) ;;;
  print "bivvy installed successfully".

Definition ensure_binary (h : Host) : Py string :=
  (let! present := path_exists (BINARY_PATH h) in
   if negb present then download_binary h else ret tt) ;;;
  ret (BINARY_PATH h).

Definition main (h : Host) : Py unit :=
  let! binary := ensure_binary h in
  let! result := subprocess_run h (binary :: skipn 1 (argv h)) in
  sys_exit result.

(** * Vocabulary of the properties *)

(** ** Platform resolution *)

(** The tables as the specification documents them: three operating
    systems, and two spellings for each of the two architectures. *)
Definition documented_os : list (string * string) :=
  [("darwin", "darwin"); ("linux", "linux"); ("windows", "windows")].
Definition documented_arch : list (string * string) :=
  [("x86_64", "x64"); ("amd64", "x64"); ("arm64", "arm64"); ("aarch64", "arm64")].

(** Either dictionary lookup of [get_platform] misses. *)
Definition lookup_misses (h : Host) : Prop :=
  os_map !! PyStr.lower (platform_system h) = None ∨
  arch_map !! PyStr.lower (platform_machine h) = None.

(** On the example hosts no link, fifo or device can be made. *)
Definition no_special (member : TarInfo) (target : string) (fs : gmap string Node) :
  (Exn + unit) * gmap string Node :=
  (inl (PermissionError target), fs).

Definition darwin_arm64_host : Host :=
  mkHost "darwin" "Darwin" "arm64" ["bivvy"] "/site-packages/bivvy"
    (fun _ => inl (URLError "offline")) (fun _ _ => 0)
    false no_special.

Definition linux_x86_64_host : Host :=
  mkHost "linux" "Linux" "x86_64" ["bivvy"] "/site-packages/bivvy"
    (fun _ => inl (URLError "offline")) (fun _ _ => 0)
    false no_special.

Definition freebsd_host : Host :=
  mkHost "freebsd14" "FreeBSD" "amd64" ["bivvy"] "/site-packages/bivvy"
    (fun _ => inl (URLError "offline")) (fun _ _ => 0)
    false no_special.

(** ** The pieces of a run of [download_binary] *)

(** The members the loop acts on, in archive order. *)
Definition matching (ms : list TarInfo) : list TarInfo :=
  filter (λ m, name m = "bivvy") ms.

(** Writing each of them in turn to the cache path. *)
Definition install_all (h : Host) (l : list TarInfo) (fs : gmap string Node) :
  gmap string Node :=
  foldl (λ acc m, <[BINARY_PATH h := File (data m) (mode m)]> acc) fs l.

(** May a regular-file member be written where [cur] is? *)
Definition writable_node (h : Host) (cur : option Node) : Prop :=
  match cur with
  | None => True
  | Some Dir => False
  | Some (File _ perm) => can_overwrite h perm = true
  end.

(** The loop writes every member of [l] in turn, with [cur] at the cache
    path before the first: each member is a regular file whose data the
    stream still holds, and each finds nothing at the cache path, or a file
    it may overwrite (for the second and later ones, the copy just made). *)
Fixpoint loop_installs (h : Host) (cur : option Node) (l : list TarInfo) : Prop :=
  match l with
  | [] => True
  | m :: l' =>
      type_ m = REGTYPE ∧ buffered m = true ∧ writable_node h cur ∧
      loop_installs h (Some (File (data m) (mode m))) l'
  end.

(** [mkdir] succeeds unless a regular file sits where the cache directory
    should be. *)
Definition cache_dir_usable (h : Host) (fs : gmap string Node) : Prop :=
  ∀ image perm, fs !! BINARY_DIR h ≠ Some (File image perm).

Definition with_cache_dir (h : Host) (fs : gmap string Node) : gmap string Node :=
  match fs !! BINARY_DIR h with
  | None => <[BINARY_DIR h := Dir]> fs
  | Some _ => fs
  end.

(** The last two statements of [download_binary]. *)
Definition finish (h : Host) : Py unit :=
  (if negb (is_win32 h) then chmod (BINARY_PATH h) 493 else ret tt) ;;;
  print "bivvy installed successfully".

Definition announce (plat : string) : Event :=
  Stdout ("Downloading bivvy from " +:+ artifact_url plat).

Definition installed_line : Event := Stdout "bivvy installed successfully".

(** Every action of every run of [m] satisfies [P]. *)
Definition emits {A} (P : Event → Prop) (m : Py A) : Prop :=
  ∀ fs, Forall P (events (m fs)).

(** The actions of the install path: anything but starting a child, and a
    fetch only of the artifact of the resolved platform. *)
Definition install_event (h : Host) (e : Event) : Prop :=
  match e with
  | Spawn _ => False
  | Fetch u => ∀ plat, get_platform h = inr plat → u = artifact_url plat
  | _ => True
  end.

(** ** Hosts used as examples *)

Definition license_entry : TarInfo :=
  mkTarInfo "LICENSE" 420 "MIT License" REGTYPE "" true.
Definition readme_entry : TarInfo :=
  mkTarInfo "README.md" 420 "# bivvy" REGTYPE "" true.
Definition binary_entry : TarInfo :=
  mkTarInfo "bivvy" 420 "ELF-bivvy-1.0.1" REGTYPE "" true.

(** A Linux host served the release archive: the binary and two decoys. *)
Definition linux_release_host : Host :=
  mkHost "linux" "Linux" "x86_64" ["bivvy"; "--version"] "/site-packages/bivvy"
    (fun _ => inr (GzipTar [license_entry; binary_entry; readme_entry]))
    (fun _ args => match args with ["--version"] => 0 | _ => 2 end)
    false no_special.

(** A Windows host served an archive that has no entry named bivvy. *)
Definition windows_decoy_host : Host :=
  mkHost "win32" "Windows" "AMD64" ["bivvy"; "--version"] "C:\site-packages\bivvy"
    (fun _ => inr (GzipTar [license_entry; readme_entry]))
    (fun _ _ => 0)
    false no_special.

(** The same archive served to a Linux host. *)
Definition linux_decoy_host : Host :=
  mkHost "linux" "Linux" "x86_64" ["bivvy"; "--version"] "/site-packages/bivvy"
    (fun _ => inr (GzipTar [license_entry; readme_entry]))
    (fun _ _ => 0)
    false no_special.


(** A Linux host served bytes that are no gzip-tar archive. *)
Definition linux_garbage_host : Host :=
  mkHost "linux" "Linux" "x86_64" ["bivvy"] "/site-packages/bivvy"
    (fun _ => inr Garbage) (fun _ _ => 0)
    false no_special.

(** The binary as a release has it: a regular file of several megabytes,
    far behind the buffer of the gzip reader by the time it is extracted. *)
Definition large_binary_entry : TarInfo :=
  mkTarInfo "bivvy" 493 "ELF-bivvy-1.0.1" REGTYPE "" false.

(** A Linux host served an archive with that binary and two decoys. *)
Definition linux_large_binary_host : Host :=
  mkHost "linux" "Linux" "x86_64" ["bivvy"; "--version"] "/site-packages/bivvy"
    (fun _ => inr (GzipTar [license_entry; large_binary_entry; readme_entry]))
    (fun _ _ => 0)
    false no_special.




(** A host whose cached binary dies from a signal. *)
Definition linux_crash_host : Host :=
  mkHost "linux" "Linux" "x86_64" ["bivvy"; "run"; "--verbose"] "/site-packages/bivvy"
    (fun _ => inl (URLError "offline")) (fun _ _ => -11)
    false no_special.

Definition linux_cached_fs : gmap string Node :=
  <["/site-packages/bivvy/bin/bivvy" := File "ELF-bivvy-1.0.1" 493]>
    (<["/site-packages/bivvy/bin" := Dir]> ∅).

(** ** Vocabulary of the further properties *)

(** The six tags [get_platform] can return. *)
Definition platform_tags : list string :=
  ["darwin-x64"; "darwin-arm64"; "linux-x64"; "linux-arm64";
   "windows-x64"; "windows-arm64"].

(** A host that reports its system in lower case already. *)
Definition darwin_lowercase_host : Host :=
  mkHost "darwin" "darwin" "arm64" ["bivvy"] "/site-packages/bivvy"
    (fun _ => inl (URLError "offline")) (fun _ _ => 0)
    false no_special.

(** The archive that the release URL of this host serves. *)
Definition served (h : Host) (ms : list TarInfo) : Prop :=
  ∃ plat, get_platform h = inr plat ∧
          urlopen h (artifact_url plat) = inr (GzipTar ms).

(** Every entry named bivvy of the archive served is a regular file. *)
Definition regular_binaries (h : Host) : Prop :=
  ∀ ms, served h ms → Forall (λ m, type_ m = REGTYPE) (matching ms).

(** Every entry named bivvy of the archive served is a regular file or a
    directory: none is a link, a fifo or a device. *)
Definition plain_binaries (h : Host) : Prop :=
  ∀ ms, served h ms →
        Forall (λ m, type_ m = REGTYPE ∨ type_ m = DIRTYPE) (matching ms).

(** The unpacking of a member named bivvy of [ms] to the cache path. *)
Definition unpack_of (h : Host) (ms : list TarInfo) (e : Event) : Prop :=
  ∃ m, m ∈ ms ∧ name m = "bivvy" ∧ e = Unpack (BINARY_PATH h) (data m).

(** * Properties *)

(** ** Platform resolution *)

Lemma os_map_documented s :
  os_map !! s = (list_to_map documented_os : gmap string string) !! s.
Proof. reflexivity. Qed.

Lemma arch_map_documented s :
  arch_map !! s = (list_to_map documented_arch : gmap string string) !! s.
Proof. reflexivity. Qed.

Lemma os_map_hit s o : (s, o) ∈ documented_os → os_map !! s = Some o.
Proof.
  intros Hin. rewrite os_map_documented.
  apply elem_of_list_to_map_1; [ | exact Hin].
  compute_done.
Qed.

Lemma arch_map_hit s a : (s, a) ∈ documented_arch → arch_map !! s = Some a.
Proof.
  intros Hin. rewrite arch_map_documented.
  apply elem_of_list_to_map_1; [ | exact Hin].
  compute_done.
Qed.

Lemma os_map_miss s : s ∉ documented_os.*1 → os_map !! s = None.
Proof.
  intros Hout. rewrite os_map_documented.
  by apply not_elem_of_list_to_map_1.
Qed.

Lemma arch_map_miss s : s ∉ documented_arch.*1 → arch_map !! s = None.
Proof.
  intros Hout. rewrite arch_map_documented.
  by apply not_elem_of_list_to_map_1.
Qed.

Lemma documented_os_nonempty s o : (s, o) ∈ documented_os → PyStr.truthy (Some o) = true.
Proof.
  unfold documented_os. rewrite !elem_of_cons, elem_of_nil.
  intros [H|[H|[H|[]]]]; apply (f_equal snd) in H; simpl in H; subst o; reflexivity.
Qed.

Lemma documented_arch_nonempty s a :
  (s, a) ∈ documented_arch → PyStr.truthy (Some a) = true.
Proof.
  unfold documented_arch. rewrite !elem_of_cons, elem_of_nil.
  intros [H|[H|[H|[H|[]]]]]; apply (f_equal snd) in H; simpl in H; subst a; reflexivity.
Qed.

Lemma get_platform_miss h :
  lookup_misses h →
  get_platform h =
    inl (RuntimeError ("Unsupported platform: " +:+ PyStr.lower (platform_system h)
                         +:+ "-" +:+ PyStr.lower (platform_machine h))).
Proof.
  intros [Hos|Harch]; unfold get_platform.
  - rewrite Hos. reflexivity.
  - rewrite Harch. simpl PyStr.truthy. rewrite orb_true_r. reflexivity.
Qed.

(** C4. For every host whose lower-cased (system, machine) pair is in the
    documented tables, [get_platform] returns the tag os-arch, with both
    x86 spellings folded to x64 and both ARM spellings folded to arm64;
    for every host with a string outside the tables it raises the
    unsupported-platform error. *)
Theorem get_platform_documented (h : Host) :
  (∀ os arch,
     (PyStr.lower (platform_system h), os) ∈ documented_os →
     (PyStr.lower (platform_machine h), arch) ∈ documented_arch →
     get_platform h = inr (os +:+ "-" +:+ arch)) ∧
  (PyStr.lower (platform_system h) ∉ documented_os.*1 ∨
   PyStr.lower (platform_machine h) ∉ documented_arch.*1 →
   ∃ msg, get_platform h = inl (RuntimeError msg)).
Proof.
  split.
  - intros os arch Hos Harch. unfold get_platform.
    rewrite (os_map_hit _ _ Hos), (arch_map_hit _ _ Harch).
    rewrite (documented_os_nonempty _ _ Hos), (documented_arch_nonempty _ _ Harch).
    reflexivity.
  - intros Hout. eexists. apply get_platform_miss.
    destruct Hout as [Hout|Hout]; [left; by apply os_map_miss | right; by apply arch_map_miss].
Qed.

Lemma get_platform_documented_witness :
  get_platform darwin_arm64_host = inr "darwin-arm64" ∧
  get_platform linux_x86_64_host = inr "linux-x64" ∧
  ∃ msg, get_platform freebsd_host = inl (RuntimeError msg).
Proof.
  split; [ | split].
  - apply (proj1 (get_platform_documented darwin_arm64_host) "darwin" "arm64");
      compute_done.
  - apply (proj1 (get_platform_documented linux_x86_64_host) "linux" "x64");
      compute_done.
  - apply (proj2 (get_platform_documented freebsd_host)).
    left. compute_done.
Defined.

(** C5, as the code has it.  When either lookup misses, the error message
    is built from the lower-cased system and machine strings, the ones the
    lookups were made with; it is the raw pair only when the host already
    reports them in lower case. *)
Theorem get_platform_error_carries_lowered (h : Host) :
  lookup_misses h →
  get_platform h =
    inl (RuntimeError ("Unsupported platform: " +:+ PyStr.lower (platform_system h)
                         +:+ "-" +:+ PyStr.lower (platform_machine h))).
Proof. apply get_platform_miss. Qed.

Lemma get_platform_error_carries_lowered_witness :
  get_platform freebsd_host = inl (RuntimeError "Unsupported platform: freebsd-amd64").
Proof.
  apply (get_platform_error_carries_lowered freebsd_host).
  left. vm_compute. reflexivity.
Defined.

(** C5, as stated, fails on a FreeBSD host: the lookup of the system
    misses, and the message raised spells the system in lower case; the
    string the host reported does not occur in it. *)
Lemma get_platform_error_not_raw :
  lookup_misses freebsd_host ∧
  get_platform freebsd_host = inl (RuntimeError "Unsupported platform: freebsd-amd64") ∧
  PyStr.contains (platform_system freebsd_host) "Unsupported platform: freebsd-amd64" = false ∧
  get_platform freebsd_host ≠
    inl (RuntimeError ("Unsupported platform: " +:+ platform_system freebsd_host
                         +:+ "-" +:+ platform_machine freebsd_host)).
Proof.
  split; [left; vm_compute; reflexivity | ].
  split; [vm_compute; reflexivity | ].
  split; [vm_compute; reflexivity | ].
  intros Heq. vm_compute in Heq. congruence.
Qed.

(** ** Running [Py] computations *)

Lemma bind_ok {A B} (m : Py A) (k : A → Py B) fs a fs1 t1 :
  m fs = (inr a, fs1, t1) →
  bind m k fs = (outcome (k a fs1), final_fs (k a fs1), t1 ++ events (k a fs1)).
Proof.
  intros Hm. unfold bind, outcome, final_fs, events. rewrite Hm.
  destruct (k a fs1) as [[r fs2] t2]. reflexivity.
Qed.

Lemma bind_ret_l {A B} (a : A) (k : A → Py B) fs : bind (ret a) k fs = k a fs.
Proof. unfold bind, ret. destruct (k a fs) as [[r fs2] t2]. reflexivity. Qed.

Lemma bind_raise {A B} (m : Py A) (k : A → Py B) fs e fs1 t1 :
  m fs = (inl e, fs1, t1) → bind m k fs = (inl e, fs1, t1).
Proof. intros Hm. unfold bind. rewrite Hm. reflexivity. Qed.

Lemma run_eta {A} (r : (Exn + A) * gmap string Node * list Event) :
  r = (outcome r, final_fs r, events r).
Proof. destruct r as [[o f] t]. reflexivity. Qed.

Lemma fetches_app t1 t2 : fetches (t1 ++ t2) = fetches t1 ++ fetches t2.
Proof. apply flat_map_app. Qed.

Lemma spawns_app t1 t2 : spawns (t1 ++ t2) = spawns t1 ++ spawns t2.
Proof. apply flat_map_app. Qed.

Lemma extractions_app t1 t2 :
  extractions (t1 ++ t2) = extractions t1 ++ extractions t2.
Proof. apply flat_map_app. Qed.

(** ** Paths *)

Lemma string_app_length (s t : string) :
  String.length (s +:+ t) = (String.length s + String.length t)%nat.
Proof. induction s as [|c s IH]; simpl; [reflexivity | by rewrite IH]. Qed.

Lemma BINARY_DIR_not_BINARY_PATH h : BINARY_DIR h ≠ BINARY_PATH h.
Proof.
  intros Heq. apply (f_equal String.length) in Heq.
  unfold BINARY_PATH, path_join in Heq.
  rewrite !string_app_length in Heq.
  unfold path_sep, BINARY_NAME in Heq.
  destruct (is_win32 h); simpl in Heq; lia.
Qed.

Lemma extract_target h member :
  path_join h (BINARY_DIR h) (name (set_name member (BINARY_NAME h))) = BINARY_PATH h.
Proof. reflexivity. Qed.

(** ** The extraction loop *)

Lemma install_all_cons h m l fs :
  install_all h (m :: l) fs =
    install_all h l (<[BINARY_PATH h := File (data m) (mode m)]> fs).
Proof. reflexivity. Qed.

Lemma install_all_last h l b fs :
  last l = Some b →
  install_all h l fs = <[BINARY_PATH h := File (data b) (mode b)]> fs.
Proof.
  revert fs. induction l as [|m l IH]; intros fs Hlast; [discriminate | ].
  destruct l as [|m' l'].
  - simpl in *. by simplify_eq.
  - rewrite install_all_cons, IH by exact Hlast. apply insert_insert_eq.
Qed.

Lemma tar_extract_ok h member fs :
  type_ member = REGTYPE → buffered member = true →
  writable_node h (fs !! BINARY_PATH h) →
  tar_extract h (set_name member (BINARY_NAME h)) (BINARY_DIR h) fs =
    (inr tt, <[BINARY_PATH h := File (data member) (mode member)]> fs,
     [Unpack (BINARY_PATH h) (data member)]).
Proof.
  intros Htype Hbuf Hfs. unfold tar_extract. rewrite extract_target. simpl.
  rewrite Htype, Hbuf. simpl.
  destruct (fs !! BINARY_PATH h) as [[|image perm]|]; simpl in Hfs;
    [destruct Hfs | by rewrite Hfs | reflexivity].
Qed.

Lemma for_each_extract h ms fs :
  loop_installs h (fs !! BINARY_PATH h) (matching ms) →
  for_each ms (extract_member h) fs =
    (inr tt, install_all h (matching ms) fs,
     (λ m, Unpack (BINARY_PATH h) (data m)) <$> matching ms).
Proof.
  revert fs. induction ms as [|m ms IH]; intros fs Hloop; [reflexivity | ].
  simpl for_each. unfold matching in *. rewrite filter_cons in *.
  fold (matching ms) in *. unfold extract_member at 1.
  destruct (String.eqb_spec (name m) "bivvy") as [Hname|Hname].
  - rewrite decide_True in * by exact Hname.
    destruct Hloop as (Htype & Hbuf & Hfs & Hrest).
    erewrite bind_ok by (by apply tar_extract_ok).
    rewrite IH by (by rewrite lookup_insert_eq).
    reflexivity.
  - rewrite decide_False in * by exact Hname.
    erewrite bind_ok by reflexivity.
    rewrite IH by exact Hloop. reflexivity.
Qed.

(** ** download_binary, step by step *)

Lemma mkdir_ok h fs :
  cache_dir_usable h fs → mkdir (BINARY_DIR h) fs = (inr tt, with_cache_dir h fs, []).
Proof.
  intros Huse. unfold mkdir, with_cache_dir.
  destruct (fs !! BINARY_DIR h) as [[|image perm]|] eqn:Hdir; try reflexivity.
  by destruct (Huse image perm).
Qed.

Lemma with_cache_dir_path h fs :
  with_cache_dir h fs !! BINARY_PATH h = fs !! BINARY_PATH h.
Proof.
  unfold with_cache_dir. destruct (fs !! BINARY_DIR h); [reflexivity | ].
  apply lookup_insert_ne, BINARY_DIR_not_BINARY_PATH.
Qed.

(** Once the platform is resolved, the cache directory made and the
    archive opened, the run is the loop followed by [finish]. *)
Lemma download_binary_unpacked h fs plat ms :
  get_platform h = inr plat →
  cache_dir_usable h fs →
  urlopen h (artifact_url plat) = inr (GzipTar ms) →
  loop_installs h (fs !! BINARY_PATH h) (matching ms) →
  let fs2 := install_all h (matching ms) (with_cache_dir h fs) in
  download_binary h fs =
    (outcome (finish h fs2), final_fs (finish h fs2),
     [announce plat; Fetch (artifact_url plat)]
       ++ ((λ m, Unpack (BINARY_PATH h) (data m)) <$> matching ms)
       ++ events (finish h fs2)).
Proof.
  intros Hplat Huse Hopen Hpath fs2.
  unfold download_binary, finish, open_url, bind, print, emit.
  rewrite Hplat. simpl.
  rewrite mkdir_ok by exact Huse. rewrite Hopen. simpl.
  rewrite for_each_extract by (by rewrite with_cache_dir_path).
  fold fs2.
  destruct ((if negb (is_win32 h) then chmod (BINARY_PATH h) 493 else ret ()) fs2)
    as [[[e|[]] fs3] t3]; reflexivity.
Qed.

Lemma finish_win32 h fs :
  is_win32 h = true → finish h fs = (inr tt, fs, [installed_line]).
Proof. intros Hwin. unfold finish. rewrite Hwin. reflexivity. Qed.


Lemma finish_posix_absent h fs :
  is_win32 h = false →
  fs !! BINARY_PATH h = None →
  finish h fs = (inl (FileNotFoundError (BINARY_PATH h)), fs, []).
Proof.
  intros Hwin Hnone. unfold finish, bind, chmod. rewrite Hwin. simpl.
  rewrite Hnone. reflexivity.
Qed.

Lemma matching_none ms : Forall (λ m, name m ≠ "bivvy") ms → matching ms = [].
Proof.
  induction 1 as [|m ms Hm _ IH]; [reflexivity | ].
  unfold matching. rewrite filter_cons, decide_False by exact Hm. exact IH.
Qed.

(** ** What a computation may emit *)

Section Emits.
Context (P : Event → Prop).

Lemma emits_ret {A} (a : A) : emits P (ret a).
Proof. intros fs. constructor. Qed.

Lemma emits_raise {A} e : emits P (@raise A e).
Proof. intros fs. constructor. Qed.

Lemma emits_lift {A} (r : Exn + A) : emits P (lift r).
Proof. destruct r; [apply emits_raise | apply emits_ret]. Qed.

Lemma emits_emit e : P e → emits P (emit e).
Proof. intros He fs. by repeat constructor. Qed.

Lemma emits_bind {A B} (m : Py A) (k : A → Py B) :
  emits P m → (∀ a, emits P (k a)) → emits P (bind m k).
Proof.
  intros Hm Hk fs. specialize (Hm fs). unfold bind.
  destruct (m fs) as [[[e|a] fs1] t1]; [exact Hm | ].
  specialize (Hk a fs1). destruct (k a fs1) as [[r fs2] t2].
  unfold events in *. simpl in *. by apply Forall_app.
Qed.

Lemma emits_for_each {A} (xs : list A) (body : A → Py unit) :
  (∀ x, emits P (body x)) → emits P (for_each xs body).
Proof.
  intros Hbody. induction xs as [|x xs IH]; [apply emits_ret | ].
  simpl. apply emits_bind; [apply Hbody | intros _; exact IH].
Qed.

Lemma emits_mkdir p : emits P (mkdir p).
Proof. intros fs. unfold mkdir. destruct (fs !! p) as [[|? ?]|]; constructor. Qed.

Lemma emits_path_exists p : emits P (path_exists p).
Proof. intros fs. constructor. Qed.

Lemma emits_tarfile_open b : emits P (tarfile_open b).
Proof. destruct b; [apply emits_ret | apply emits_raise | apply emits_raise]. Qed.

Lemma emits_tar_extract h member dir :
  (∀ p i, P (Unpack p i)) → emits P (tar_extract h member dir).
Proof.
  intros HP fs. unfold tar_extract. cbv zeta.
  repeat match goal with
         | |- context [match ?x with _ => _ end] => destruct x
         end;
    unfold events; simpl; repeat constructor; apply HP.
Qed.

Lemma emits_chmod p bits : P (Chmod p bits) → emits P (chmod p bits).
Proof.
  intros HP fs. unfold chmod.
  destruct (fs !! p) as [[|? ?]|]; unfold events; simpl; by repeat constructor.
Qed.

Lemma emits_open_url h url : P (Fetch url) → emits P (open_url h url).
Proof.
  intros HP. unfold open_url.
  apply emits_bind; [by apply emits_emit | intros _; apply emits_lift].
Qed.
End Emits.

Lemma download_binary_emits h : emits (install_event h) (download_binary h).
Proof.
  unfold download_binary.
  destruct (get_platform h) as [e|plat] eqn:Hplat.
  { intros fs. unfold bind. simpl. constructor. }
  unfold lift. intros fs. rewrite bind_ret_l. revert fs.
  apply emits_bind; [by apply emits_emit | intros _].
  apply emits_bind; [apply emits_mkdir | intros _].
  apply emits_bind.
  - apply emits_bind.
    + apply emits_open_url. simpl. intros plat' Hplat'. congruence.
    + intros response. apply emits_bind; [apply emits_tarfile_open | intros tar].
      apply emits_for_each. intros member. unfold extract_member.
      destruct (String.eqb _ _); [by apply emits_tar_extract | apply emits_ret].
  - intros _. apply emits_bind; [ | intros _; by apply emits_emit].
    destruct (negb _); [by apply emits_chmod | apply emits_ret].
Qed.

Lemma ensure_binary_emits h : emits (install_event h) (ensure_binary h).
Proof.
  unfold ensure_binary.
  apply emits_bind; [ | intros _; apply emits_ret].
  apply emits_bind; [apply emits_path_exists | intros present].
  destruct (negb present); [apply download_binary_emits | apply emits_ret].
Qed.

Lemma install_events_no_spawn h t : Forall (install_event h) t → spawns t = [].
Proof.
  induction 1 as [|e t He _ IH]; [reflexivity | ].
  destruct e; simpl in *; try exact IH. destruct He.
Qed.

Lemma install_events_fetch h t plat u :
  Forall (install_event h) t → get_platform h = inr plat →
  u ∈ fetches t → u = artifact_url plat.
Proof.
  intros Hall Hplat. induction Hall as [|e t He _ IH]; simpl.
  - intros Hin. by apply elem_of_nil in Hin.
  - destruct e; simpl in *; try exact IH.
    rewrite elem_of_cons. intros [->|Hin]; [by apply He | by apply IH].
Qed.

Lemma cache_dir_usable_empty h : cache_dir_usable h ∅.
Proof. intros image perm. rewrite lookup_empty. discriminate. Qed.

(** ** Installation *)

(** C1, on the code.  On a Windows host served an archive with no entry
    named bivvy, [download_binary] raises nothing: it returns normally and
    prints the success line, and the cache path is still absent. *)
Theorem download_binary_windows_no_entry_succeeds :
  Forall (λ m, name m ≠ "bivvy") [license_entry; readme_entry] ∧
  download_binary windows_decoy_host ∅ =
    (inr tt,
     <["C:\site-packages\bivvy\bin" := Dir]> ∅,
     [Stdout "Downloading bivvy from https://github.com/bivvy-dev/bivvy/releases/download/1.0.1/bivvy-windows-x64.tar.gz";
      Fetch "https://github.com/bivvy-dev/bivvy/releases/download/1.0.1/bivvy-windows-x64.tar.gz";
      Stdout "bivvy installed successfully"]) ∧
  final_fs (download_binary windows_decoy_host ∅) !! BINARY_PATH windows_decoy_host = None ∧
  outcome (ensure_binary windows_decoy_host ∅) = inr "C:\site-packages\bivvy\bin\bivvy.exe".
Proof.
  split; [repeat constructor; discriminate | ].
  split; [vm_compute; reflexivity | ].
  split; vm_compute; reflexivity.
Qed.

(** C6, on the code.  A Linux host is served an archive whose only entry
    named bivvy is a regular file, next to two decoys, the binary being of
    the size of a release: its data has left the buffer of the gzip reader
    when [tar.extract] seeks back to it.  [download_binary] raises
    [io.UnsupportedOperation] from that seek; no file is extracted, no
    permission is set, and the cache path stays absent; [main] ends with
    that error and starts nothing. *)
Theorem download_binary_large_binary_fails :
  matching [license_entry; large_binary_entry; readme_entry] = [large_binary_entry] ∧
  type_ large_binary_entry = REGTYPE ∧
  download_binary linux_large_binary_host ∅ =
    (inl UnsupportedOperation,
     <["/site-packages/bivvy/bin" := Dir]> ∅,
     [Stdout "Downloading bivvy from https://github.com/bivvy-dev/bivvy/releases/download/1.0.1/bivvy-linux-x64.tar.gz";
      Fetch "https://github.com/bivvy-dev/bivvy/releases/download/1.0.1/bivvy-linux-x64.tar.gz"]) ∧
  final_fs (download_binary linux_large_binary_host ∅)
    !! BINARY_PATH linux_large_binary_host = None ∧
  outcome (main linux_large_binary_host ∅) = inl UnsupportedOperation ∧
  spawns (events (main linux_large_binary_host ∅)) = [].
Proof.
  split; [reflexivity | ]. split; [reflexivity | ].
  split; [vm_compute; reflexivity | ].
  split; [vm_compute; reflexivity | ].
  split; vm_compute; reflexivity.
Qed.

(** C9. When the archive has no entry named bivvy and the cache path is
    absent, the outcome depends on the platform.  Off Windows the chmod of
    the absent cache path raises FileNotFoundError; on Windows the call
    returns normally, its last action being the success line.  Either way
    nothing is at the cache path afterwards. *)
Theorem download_binary_no_entry h fs plat ms :
  get_platform h = inr plat →
  cache_dir_usable h fs →
  urlopen h (artifact_url plat) = inr (GzipTar ms) →
  Forall (λ m, name m ≠ "bivvy") ms →
  fs !! BINARY_PATH h = None →
  download_binary h fs =
    (if is_win32 h
     then (inr tt, with_cache_dir h fs,
           [announce plat; Fetch (artifact_url plat); installed_line])
     else (inl (FileNotFoundError (BINARY_PATH h)), with_cache_dir h fs,
           [announce plat; Fetch (artifact_url plat)])) ∧
  final_fs (download_binary h fs) !! BINARY_PATH h = None.
Proof.
  intros Hplat Huse Hopen Hnone Habsent.
  assert (Hrun : download_binary h fs =
    (if is_win32 h
     then (inr tt, with_cache_dir h fs,
           [announce plat; Fetch (artifact_url plat); installed_line])
     else (inl (FileNotFoundError (BINARY_PATH h)), with_cache_dir h fs,
           [announce plat; Fetch (artifact_url plat)]))).
  { rewrite (download_binary_unpacked h fs plat ms)
      by (try assumption; rewrite (matching_none ms Hnone); exact I).
    rewrite (matching_none ms Hnone). simpl install_all.
    destruct (is_win32 h) eqn:Hwin.
    - rewrite finish_win32 by exact Hwin. reflexivity.
    - rewrite finish_posix_absent
        by (exact Hwin || (rewrite with_cache_dir_path; exact Habsent)).
      reflexivity. }
  split; [exact Hrun | ].
  rewrite Hrun. destruct (is_win32 h); unfold final_fs; simpl;
    rewrite with_cache_dir_path; exact Habsent.
Qed.

Lemma download_binary_no_entry_witness :
  (download_binary windows_decoy_host ∅ =
     (inr tt, with_cache_dir windows_decoy_host ∅,
      [announce "windows-x64"; Fetch (artifact_url "windows-x64"); installed_line]) ∧
   final_fs (download_binary windows_decoy_host ∅) !! BINARY_PATH windows_decoy_host = None) ∧
  (download_binary linux_decoy_host ∅ =
     (inl (FileNotFoundError "/site-packages/bivvy/bin/bivvy"),
      with_cache_dir linux_decoy_host ∅,
      [announce "linux-x64"; Fetch (artifact_url "linux-x64")]) ∧
   final_fs (download_binary linux_decoy_host ∅) !! BINARY_PATH linux_decoy_host = None).
Proof.
  split.
  - apply (download_binary_no_entry windows_decoy_host ∅ "windows-x64"
             [license_entry; readme_entry] eq_refl (cache_dir_usable_empty _) eq_refl).
    + repeat constructor; discriminate.
    + apply lookup_empty.
  - apply (download_binary_no_entry linux_decoy_host ∅ "linux-x64"
             [license_entry; readme_entry] eq_refl (cache_dir_usable_empty _) eq_refl).
    + repeat constructor; discriminate.
    + apply lookup_empty.
Defined.





(** ** The artifact URL *)

(** C8. The URL is the composition of the fixed host and repository, the
    version 1.0.1 verbatim and the platform tag; it depends on nothing
    else, whatever the host and the file system: [download_binary]
    announces that URL first and fetches no other. *)
Theorem artifact_url_composition h fs plat :
  get_platform h = inr plat →
  artifact_url plat =
    "https://github.com/" +:+ GITHUB_REPO +:+ "/releases/download/" +:+ __version__
      +:+ "/bivvy-" +:+ plat +:+ ".tar.gz" ∧
  artifact_url plat =
    "https://github.com/bivvy-dev/bivvy/releases/download/1.0.1/bivvy-" +:+ plat
      +:+ ".tar.gz" ∧
  (∃ rest, events (download_binary h fs) =
             Stdout ("Downloading bivvy from " +:+ artifact_url plat) :: rest) ∧
  (∀ u, u ∈ fetches (events (download_binary h fs)) → u = artifact_url plat).
Proof.
  intros Hplat. split; [reflexivity | ]. split; [reflexivity | ]. split.
  - unfold download_binary. rewrite Hplat. unfold lift. rewrite bind_ret_l.
    unfold bind at 1. unfold print at 1, emit.
    match goal with |- context [?m fs] =>
      destruct (m fs) as [[r fs'] t] end.
    eexists. reflexivity.
  - intros u. apply (install_events_fetch h); [apply download_binary_emits | exact Hplat].
Qed.

Lemma artifact_url_composition_witness :
  artifact_url "linux-x64" =
    "https://github.com/bivvy-dev/bivvy/releases/download/1.0.1/bivvy-linux-x64.tar.gz" ∧
  fetches (events (download_binary linux_release_host ∅)) =
    ["https://github.com/bivvy-dev/bivvy/releases/download/1.0.1/bivvy-linux-x64.tar.gz"].
Proof.
  destruct (artifact_url_composition linux_release_host ∅ "linux-x64" eq_refl)
    as (_ & Hurl & _ & _).
  split; [exact Hurl | vm_compute; reflexivity].
Defined.

(** ** download_binary, case by case *)

Lemma download_binary_unsupported h fs e :
  get_platform h = inl e → download_binary h fs = (inl e, fs, []).
Proof. intros Hplat. unfold download_binary, bind. rewrite Hplat. reflexivity. Qed.

Lemma download_binary_dir_blocked h fs plat image perm :
  get_platform h = inr plat →
  fs !! BINARY_DIR h = Some (File image perm) →
  download_binary h fs = (inl (FileExistsError (BINARY_DIR h)), fs, [announce plat]).
Proof.
  intros Hplat Hdir. unfold download_binary, bind, print, emit, mkdir.
  rewrite Hplat. simpl. rewrite Hdir. reflexivity.
Qed.

Lemma download_binary_fetch_failed h fs plat e :
  get_platform h = inr plat →
  cache_dir_usable h fs →
  urlopen h (artifact_url plat) = inl e →
  download_binary h fs =
    (inl e, with_cache_dir h fs, [announce plat; Fetch (artifact_url plat)]).
Proof.
  intros Hplat Huse Hopen. unfold download_binary, open_url, bind, print, emit.
  rewrite Hplat. simpl. rewrite mkdir_ok by exact Huse. rewrite Hopen. reflexivity.
Qed.

Lemma download_binary_unreadable h fs plat :
  get_platform h = inr plat →
  cache_dir_usable h fs →
  urlopen h (artifact_url plat) = inr Garbage →
  download_binary h fs =
    (inl ReadError, with_cache_dir h fs, [announce plat; Fetch (artifact_url plat)]).
Proof.
  intros Hplat Huse Hopen. unfold download_binary, open_url, bind, print, emit.
  rewrite Hplat. simpl. rewrite mkdir_ok by exact Huse. rewrite Hopen. reflexivity.
Qed.

Lemma download_binary_truncated h fs plat :
  get_platform h = inr plat →
  cache_dir_usable h fs →
  urlopen h (artifact_url plat) = inr Truncated →
  download_binary h fs =
    (inl EOFError, with_cache_dir h fs, [announce plat; Fetch (artifact_url plat)]).
Proof.
  intros Hplat Huse Hopen. unfold download_binary, open_url, bind, print, emit.
  rewrite Hplat. simpl. rewrite mkdir_ok by exact Huse. rewrite Hopen. reflexivity.
Qed.

Lemma download_binary_opened h fs plat ms :
  get_platform h = inr plat →
  cache_dir_usable h fs →
  urlopen h (artifact_url plat) = inr (GzipTar ms) →
  download_binary h fs =
    match for_each ms (extract_member h) (with_cache_dir h fs) with
    | (inl e, fs2, t2) =>
        (inl e, fs2, [announce plat; Fetch (artifact_url plat)] ++ t2)
    | (inr _, fs2, t2) =>
        (outcome (finish h fs2), final_fs (finish h fs2),
         [announce plat; Fetch (artifact_url plat)] ++ t2 ++ events (finish h fs2))
    end.
Proof.
  intros Hplat Huse Hopen.
  unfold download_binary, finish, open_url, bind, print, emit.
  rewrite Hplat. simpl. rewrite mkdir_ok by exact Huse. rewrite Hopen. simpl.
  destruct (for_each ms (extract_member h) (with_cache_dir h fs))
    as [[[e|[]] fs2] t2]; [reflexivity | ].
  destruct ((if negb (is_win32 h) then chmod (BINARY_PATH h) 493 else ret ()) fs2)
    as [[[e|[]] fs3] t3]; reflexivity.
Qed.

Lemma cache_dir_usable_dec h fs :
  cache_dir_usable h fs ∨ ∃ image perm, fs !! BINARY_DIR h = Some (File image perm).
Proof.
  unfold cache_dir_usable.
  destruct (fs !! BINARY_DIR h) as [[|image perm]|]; [left | right | left];
    try (intros ? ?; discriminate).
  by exists image, perm.
Qed.

Lemma extract_member_events h (ms : list TarInfo) m fs :
  m ∈ ms → Forall (unpack_of h ms) (events (extract_member h m fs)).
Proof.
  intros Hin. unfold extract_member, tar_extract.
  destruct (String.eqb_spec (name m) "bivvy") as [Hname|Hname]; [ | constructor].
  rewrite extract_target. cbn [type_ buffered data mode set_name]. cbv zeta.
  repeat match goal with
         | |- context [match ?x with _ => _ end] => destruct x
         end;
    unfold events; simpl; repeat constructor; by exists m.
Qed.

Lemma loop_events_of_archive h (ms ms' : list TarInfo) fs :
  ms' ⊆ ms → Forall (unpack_of h ms) (events (for_each ms' (extract_member h) fs)).
Proof.
  revert fs. induction ms' as [|m ms' IH]; intros fs Hsub; [constructor | ].
  simpl for_each. unfold bind.
  pose proof (extract_member_events h ms m fs (Hsub m ltac:(left))) as Hm.
  destruct (extract_member h m fs) as [[[e|[]] fs1] t1]; [exact Hm | ].
  assert (Hsub' : ms' ⊆ ms) by (intros x Hx; apply Hsub; by right).
  specialize (IH fs1 Hsub').
  destruct (for_each ms' (extract_member h) fs1) as [[r fs2] t2].
  unfold events in *. simpl in *. by apply Forall_app.
Qed.

Lemma loop_events h (ms : list TarInfo) fs :
  Forall (unpack_of h ms) (events (for_each ms (extract_member h) fs)).
Proof. by apply loop_events_of_archive. Qed.

Lemma finish_cases h fs :
  finish h fs = (inl (FileNotFoundError (BINARY_PATH h)), fs, []) ∨
  (∃ fs', finish h fs = (inr tt, fs', [installed_line])) ∨
  (∃ fs', finish h fs = (inr tt, fs', [Chmod (BINARY_PATH h) 493; installed_line])).
Proof.
  unfold finish, bind, chmod, print, emit.
  destruct (is_win32 h); simpl; [right; left; by eexists | ].
  destruct (fs !! BINARY_PATH h) as [[|image perm]|];
    [right; right; by eexists | right; right; by eexists | by left].
Qed.

(** The actions of any run of [download_binary]: the announcement, the
    fetch, the unpackings of the loop, and what [finish] adds. *)
Lemma download_binary_shape h fs :
  (events (download_binary h fs) = [] ∧ ∃ e, get_platform h = inl e) ∨
  ∃ plat,
    get_platform h = inr plat ∧
    ((events (download_binary h fs) = [announce plat] ∧
      outcome (download_binary h fs) = inl (FileExistsError (BINARY_DIR h))) ∨
     (cache_dir_usable h fs ∧
      ∃ ms loop post,
        events (download_binary h fs) =
          [announce plat; Fetch (artifact_url plat)] ++ loop ++ post ∧
        Forall (unpack_of h ms) loop ∧
        (loop = [] ∨ urlopen h (artifact_url plat) = inr (GzipTar ms)) ∧
        ((post = [] ∧ ∃ e, outcome (download_binary h fs) = inl e) ∨
         ((post = [installed_line] ∨
           post = [Chmod (BINARY_PATH h) 493; installed_line]) ∧
          outcome (download_binary h fs) = inr tt)))).
Proof.
  destruct (get_platform h) as [e|plat] eqn:Hplat.
  { left. rewrite (download_binary_unsupported h fs e Hplat). by eauto. }
  right. exists plat. split; [reflexivity | ].
  destruct (cache_dir_usable_dec h fs) as [Huse|(image & perm & Hdir)].
  2:{ left. by rewrite (download_binary_dir_blocked h fs plat image perm Hplat Hdir). }
  right. split; [exact Huse | ].
  destruct (urlopen h (artifact_url plat)) as [e|[ms| |]] eqn:Hopen.
  - rewrite (download_binary_fetch_failed h fs plat e Hplat Huse Hopen).
    exists [], [], []. repeat split; eauto.
  - rewrite (download_binary_opened h fs plat ms Hplat Huse Hopen).
    pose proof (loop_events h ms (with_cache_dir h fs)) as Hloop.
    destruct (for_each ms (extract_member h) (with_cache_dir h fs))
      as [[[e|[]] fs2] t2]; cbn [events snd] in Hloop.
    + exists ms, t2, []. rewrite app_nil_r. repeat split; eauto.
    + exists ms, t2, (events (finish h fs2)).
      split; [reflexivity | ]. split; [exact Hloop | ]. split; [by right | ].
      cbn [outcome fst].
      destruct (finish_cases h fs2) as [Hfin|[[fs' Hfin]|[fs' Hfin]]];
        rewrite Hfin; cbn [outcome events fst snd]; eauto.
  - rewrite (download_binary_unreadable h fs plat Hplat Huse Hopen).
    exists [], [], []. repeat split; eauto.
  - rewrite (download_binary_truncated h fs plat Hplat Huse Hopen).
    exists [], [], []. repeat split; eauto.
Qed.

Lemma unpacks_no_fetch h ms t : Forall (unpack_of h ms) t → fetches t = [].
Proof.
  induction 1 as [|e t (m & _ & _ & ->) _ IH]; [reflexivity | exact IH].
Qed.

Lemma unpacks_no_success_line h ms t :
  Forall (unpack_of h ms) t → installed_line ∉ t.
Proof.
  intros Hall Hin. rewrite Forall_forall in Hall.
  destruct (Hall _ Hin) as (m & _ & _ & Heq). discriminate.
Qed.

Lemma unpacks_extractions h ms t p i :
  Forall (unpack_of h ms) t → (p, i) ∈ extractions t →
  p = BINARY_PATH h ∧ ∃ m, m ∈ ms ∧ name m = "bivvy" ∧ data m = i.
Proof.
  induction 1 as [|e t (m & Hin & Hname & ->) _ IH]; simpl.
  - intros Hnil. by apply elem_of_nil in Hnil.
  - rewrite elem_of_cons. intros [[= -> ->]|Hrest]; [ | by apply IH].
    split; [reflexivity | by exists m].
Qed.

(** ** ensure_binary and main *)

Lemma ensure_binary_cached h fs :
  is_Some (fs !! BINARY_PATH h) → ensure_binary h fs = (inr (BINARY_PATH h), fs, []).
Proof.
  intros Hsome. unfold ensure_binary, bind, path_exists.
  rewrite bool_decide_eq_true_2 by exact Hsome. reflexivity.
Qed.

Lemma ensure_binary_absent h fs :
  fs !! BINARY_PATH h = None →
  ensure_binary h fs =
    (match outcome (download_binary h fs) with
     | inl e => inl e
     | inr _ => inr (BINARY_PATH h)
     end,
     final_fs (download_binary h fs), events (download_binary h fs)).
Proof.
  intros Hnone. unfold ensure_binary, bind, path_exists.
  rewrite bool_decide_eq_false_2 by (rewrite Hnone; by intros [? ?]).
  simpl. destruct (download_binary h fs) as [[[e|[]] fs1] t1];
    unfold outcome, final_fs, events; simpl; [reflexivity | ].
  by rewrite app_nil_r.
Qed.

Lemma ensure_binary_path h fs p fs1 t1 :
  ensure_binary h fs = (inr p, fs1, t1) → p = BINARY_PATH h.
Proof.
  destruct (fs !! BINARY_PATH h) as [n|] eqn:Hlook.
  - rewrite ensure_binary_cached by (by exists n). congruence.
  - rewrite ensure_binary_absent by exact Hlook.
    destruct (outcome (download_binary h fs)); congruence.
Qed.

Lemma main_raise h fs e fs1 t1 :
  ensure_binary h fs = (inl e, fs1, t1) → main h fs = (inl e, fs1, t1).
Proof. intros Hens. unfold main. by apply bind_raise. Qed.

Lemma main_installed h fs p fs1 t1 :
  ensure_binary h fs = (inr p, fs1, t1) →
  main h fs =
    (match outcome (subprocess_run h (p :: skipn 1 (argv h)) fs1) with
     | inl e => inl e
     | inr code => inl (SystemExit code)
     end,
     fs1, t1 ++ events (subprocess_run h (p :: skipn 1 (argv h)) fs1)).
Proof.
  intros Hens. unfold main, bind. rewrite Hens.
  unfold subprocess_run, outcome, events.
  destruct (fs1 !! p) as [[|image perm]|]; try reflexivity.
  destruct (is_win32 h || Z.testbit perm 6); reflexivity.
Qed.

Lemma subprocess_run_spawned h cmd fs r :
  subprocess_run h cmd fs = r →
  spawns (events r) ≠ [] →
  ∃ prog args image perm,
    cmd = prog :: args ∧ fs !! prog = Some (File image perm) ∧
    is_win32 h || Z.testbit perm 6 = true ∧
    r = (inr (child h image args), fs, [Spawn cmd]).
Proof.
  intros <- Hspawn. unfold subprocess_run in *.
  destruct cmd as [|prog args]; [by destruct Hspawn | ].
  destruct (fs !! prog) as [[|image perm]|] eqn:Hprog; try by destruct Hspawn.
  destruct (is_win32 h || Z.testbit perm 6) eqn:Hexec; [ | by destruct Hspawn].
  by exists prog, args, image, perm.
Qed.

Lemma download_binary_ok_inv h fs :
  outcome (download_binary h fs) = inr tt →
  ∃ plat ms,
    get_platform h = inr plat ∧ cache_dir_usable h fs ∧
    urlopen h (artifact_url plat) = inr (GzipTar ms).
Proof.
  intros Hok.
  destruct (get_platform h) as [e|plat] eqn:Hplat.
  { rewrite (download_binary_unsupported h fs e Hplat) in Hok. discriminate. }
  destruct (cache_dir_usable_dec h fs) as [Huse|(image & perm & Hdir)].
  2:{ rewrite (download_binary_dir_blocked h fs plat image perm Hplat Hdir) in Hok.
      discriminate. }
  destruct (urlopen h (artifact_url plat)) as [e|[ms| |]] eqn:Hopen.
  - rewrite (download_binary_fetch_failed h fs plat e Hplat Huse Hopen) in Hok.
    discriminate.
  - by exists plat, ms.
  - rewrite (download_binary_unreadable h fs plat Hplat Huse Hopen) in Hok.
    discriminate.
  - rewrite (download_binary_truncated h fs plat Hplat Huse Hopen) in Hok.
    discriminate.
Qed.

Lemma fetches_of_finish h fs : fetches (events (finish h fs)) = [].
Proof.
  unfold finish, bind, chmod, print, emit.
  destruct (negb (is_win32 h)); [ | reflexivity].
  destruct (fs !! BINARY_PATH h) as [[|image perm]|]; reflexivity.
Qed.

Lemma download_binary_ok_fetches_once h fs :
  outcome (download_binary h fs) = inr tt →
  ∃ plat, get_platform h = inr plat ∧
          fetches (events (download_binary h fs)) = [artifact_url plat].
Proof.
  intros Hok.
  destruct (download_binary_shape h fs)
    as [[_ [e He]]|(plat & Hplat & [[_ Hout]|(Huse & ms & loop & post & Hev & Hloop & _ & Hpost)])].
  - rewrite (download_binary_unsupported h fs e He) in Hok. discriminate.
  - rewrite Hout in Hok. discriminate.
  - exists plat. split; [exact Hplat | ].
    rewrite Hev, !fetches_app, (unpacks_no_fetch h ms loop Hloop).
    destruct Hpost as [[-> _]|[[->| ->] _]]; reflexivity.
Qed.

(** A run of [main] that started a child: [ensure_binary] returned, the
    cached binary was there and executable, and the start of the child was
    the last action. *)
Lemma main_spawned_inv h fs r fs2 t :
  main h fs = (r, fs2, t) → spawns t ≠ [] →
  ∃ fs1 t1 image perm,
    ensure_binary h fs = (inr (BINARY_PATH h), fs1, t1) ∧ spawns t1 = [] ∧
    fs1 !! BINARY_PATH h = Some (File image perm) ∧
    is_win32 h || Z.testbit perm 6 = true ∧
    r = inl (SystemExit (child h image (skipn 1 (argv h)))) ∧ fs2 = fs1 ∧
    t = t1 ++ [Spawn (BINARY_PATH h :: skipn 1 (argv h))].
Proof.
  intros Hmain Hspawn.
  assert (Hquiet : spawns (events (ensure_binary h fs)) = []).
  { apply (install_events_no_spawn h), ensure_binary_emits. }
  destruct (ensure_binary h fs) as [[[e|p] fs1] t1] eqn:Hens;
    cbn [events snd] in Hquiet.
  - rewrite (main_raise h fs e fs1 t1 Hens) in Hmain.
    apply (f_equal events) in Hmain. cbn [events snd] in Hmain. congruence.
  - pose proof (ensure_binary_path h fs p fs1 t1 Hens) as ->.
    rewrite (main_installed h fs _ fs1 t1 Hens) in Hmain.
    assert (Ht : t = t1 ++ events (subprocess_run h (BINARY_PATH h :: skipn 1 (argv h)) fs1)).
    { apply (f_equal events) in Hmain. cbn [events snd] in Hmain. congruence. }
    rewrite Ht, spawns_app, Hquiet, app_nil_l in Hspawn.
    destruct (subprocess_run_spawned h _ fs1 _ eq_refl Hspawn)
      as (prog & args & image & perm & Hcmd & Hfile & Hexec & Hrun).
    injection Hcmd as <- <-.
    rewrite Hrun in Hmain, Ht. cbn [outcome events fst snd] in Hmain, Ht.
    exists fs1, t1, image, perm.
    repeat split; try done; congruence.
Qed.

(** C2, as the code has it.  Once [ensure_binary] has returned and the
    cached binary can be started, [main] starts exactly the command made of
    the cache path followed by [sys.argv[1:]], unchanged and in order, and
    ends in [sys.exit] with the very return code of the child, whatever its
    sign.  On a POSIX host the exit status of the launcher is that code
    modulo 256: it is the code of the child exactly when that is between 0
    and 255. *)
Theorem main_forwards_arguments_and_exit_code h fs a0 args code fs1 t1 image perm :
  argv h = a0 :: args →
  ensure_binary h fs = (inr (BINARY_PATH h), fs1, t1) →
  fs1 !! BINARY_PATH h = Some (File image perm) →
  is_win32 h || Z.testbit perm 6 = true →
  child h image args = code →
  main h fs =
    (inl (SystemExit code), fs1, t1 ++ [Spawn (BINARY_PATH h :: args)]) ∧
  (is_win32 h = false → -2147483648 ≤ code < 2147483648 →
   posix_exit_status (outcome (main h fs)) = code mod 256 ∧
   (posix_exit_status (outcome (main h fs)) = code ↔ 0 ≤ code ≤ 255)).
Proof.
  intros Hargv Hens Hfile Hexec <-.
  assert (Hmain : main h fs =
    (inl (SystemExit (child h image args)), fs1,
     t1 ++ [Spawn (BINARY_PATH h :: args)])).
  { rewrite (main_installed h fs _ fs1 t1 Hens).
    rewrite Hargv. unfold subprocess_run.
    rewrite Hfile, Hexec. reflexivity. }
  split; [exact Hmain | ].
  intros _ Hrange. rewrite Hmain. cbn [outcome fst posix_exit_status].
  split; [reflexivity | ].
  pose proof (Z.mod_pos_bound (child h image args) 256 ltac:(lia)) as Hbound.
  split.
  - intros Heq. lia.
  - intros Hsmall. apply Z.mod_small. lia.
Qed.

Lemma main_forwards_arguments_and_exit_code_witness :
  main linux_crash_host linux_cached_fs =
    (inl (SystemExit (-11)), linux_cached_fs,
     [Spawn ["/site-packages/bivvy/bin/bivvy"; "run"; "--verbose"]]) ∧
  posix_exit_status (outcome (main linux_crash_host linux_cached_fs)) = 245.
Proof.
  destruct (main_forwards_arguments_and_exit_code linux_crash_host linux_cached_fs
              "bivvy" ["run"; "--verbose"] (-11) linux_cached_fs []
              "ELF-bivvy-1.0.1" 493) as [Hmain Hstatus].
  - reflexivity.
  - vm_compute. reflexivity.
  - vm_compute. reflexivity.
  - vm_compute. reflexivity.
  - reflexivity.
  - split; [exact Hmain | ].
    destruct (Hstatus eq_refl ltac:(lia)) as [-> _]. reflexivity.
Defined.

(** C2, as stated, fails for a child that dies from a signal.  On a Linux
    host the cached binary is killed by signal 11, so that its return code
    is -11; [main] passes -11 to [sys.exit], and the exit status of the
    launcher is 245, not -11. *)
Lemma launcher_exit_status_not_child_code :
  child linux_crash_host "ELF-bivvy-1.0.1" ["run"; "--verbose"] = -11 ∧
  main linux_crash_host linux_cached_fs =
    (inl (SystemExit (-11)), linux_cached_fs,
     [Spawn ["/site-packages/bivvy/bin/bivvy"; "run"; "--verbose"]]) ∧
  posix_exit_status (outcome (main linux_crash_host linux_cached_fs)) = 245 ∧
  posix_exit_status (outcome (main linux_crash_host linux_cached_fs)) ≠
    child linux_crash_host "ELF-bivvy-1.0.1" ["run"; "--verbose"].
Proof.
  split; [reflexivity | ].
  split; [vm_compute; reflexivity | ].
  split; [vm_compute; reflexivity | ].
  intros Heq. vm_compute in Heq. congruence.
Qed.

(** C3. If [ensure_binary] raises, whichever step of the install path the
    error comes from, [main] ends with that same error and no child has
    been started; and whenever a run of [main] started a child, all of
    [ensure_binary] had returned normally before, the start of the child
    being the last action of the run. *)
Theorem install_error_aborts_before_spawn h fs :
  (∀ e fs1 t1,
     ensure_binary h fs = (inl e, fs1, t1) →
     main h fs = (inl e, fs1, t1) ∧ spawns t1 = []) ∧
  (∀ r fs2 t,
     main h fs = (r, fs2, t) → spawns t ≠ [] →
     ∃ fs1 t1,
       ensure_binary h fs = (inr (BINARY_PATH h), fs1, t1) ∧ spawns t1 = [] ∧
       t = t1 ++ [Spawn (BINARY_PATH h :: skipn 1 (argv h))]).
Proof.
  split.
  - intros e fs1 t1 Hens. split; [by apply main_raise | ].
    pose proof (ensure_binary_emits h fs) as Hall. rewrite Hens in Hall.
    by apply (install_events_no_spawn h).
  - intros r fs2 t Hmain Hspawn.
    destruct (main_spawned_inv h fs r fs2 t Hmain Hspawn)
      as (fs1 & t1 & image & perm & Hens & Hquiet & _ & _ & _ & _ & Ht).
    by exists fs1, t1.
Qed.

Lemma install_error_aborts_before_spawn_witness :
  main freebsd_host ∅ =
    (inl (RuntimeError "Unsupported platform: freebsd-amd64"), ∅, []) ∧
  spawns [] = [].
Proof.
  apply (proj1 (install_error_aborts_before_spawn freebsd_host ∅)).
  vm_compute. reflexivity.
Defined.

(** The four steps of the install path, each failing in turn: platform
    resolution (above), the fetch, the reading of the archive, and the
    permission step.  The run ends there and no child is started. *)
Example main_aborts_on_fetch_error :
  main linux_x86_64_host ∅ =
    (inl (URLError "offline"), <["/site-packages/bivvy/bin" := Dir]> ∅,
     [announce "linux-x64"; Fetch (artifact_url "linux-x64")]).
Proof. vm_compute. reflexivity. Qed.

Example main_aborts_on_unreadable_archive :
  main linux_garbage_host ∅ =
    (inl ReadError, <["/site-packages/bivvy/bin" := Dir]> ∅,
     [announce "linux-x64"; Fetch (artifact_url "linux-x64")]).
Proof. vm_compute. reflexivity. Qed.

Example main_aborts_on_chmod_error :
  main linux_decoy_host ∅ =
    (inl (FileNotFoundError "/site-packages/bivvy/bin/bivvy"),
     <["/site-packages/bivvy/bin" := Dir]> ∅,
     [announce "linux-x64"; Fetch (artifact_url "linux-x64")]).
Proof. vm_compute. reflexivity. Qed.

(** On Windows the archive without the binary gets past the install path,
    and the run only stops when the absent file is to be started. *)
Example main_windows_no_entry :
  main windows_decoy_host ∅ =
    (inl (FileNotFoundError "C:\site-packages\bivvy\bin\bivvy.exe"),
     <["C:\site-packages\bivvy\bin" := Dir]> ∅,
     [announce "windows-x64"; Fetch (artifact_url "windows-x64"); installed_line]).
Proof. vm_compute. reflexivity. Qed.

(** ** Running twice *)

Lemma same_install_paths h h2 :
  sys_platform h2 = sys_platform h → module_dir h2 = module_dir h →
  BINARY_PATH h2 = BINARY_PATH h ∧ is_win32 h2 = is_win32 h.
Proof.
  intros Hplat Hdir.
  unfold BINARY_PATH, BINARY_DIR, BINARY_NAME, path_join, path_sep, is_win32.
  by rewrite Hplat, Hdir.
Qed.

(** C7. Take a first run of [main] that starts without a cache entry and
    gets as far as starting the binary.  That run fetched once, the
    artifact of the resolved platform.  A second run on what the first left
    behind, on a host with the same install location, finds the cache
    entry: [ensure_binary] returns at once, nothing is printed, fetched or
    extracted, and the only action is the start of the cached binary. *)
Theorem second_run_skips_download h h2 fs r fs1 t1 :
  sys_platform h2 = sys_platform h →
  module_dir h2 = module_dir h →
  fs !! BINARY_PATH h = None →
  main h fs = (r, fs1, t1) →
  spawns t1 ≠ [] →
  (∃ plat, get_platform h = inr plat ∧ fetches t1 = [artifact_url plat]) ∧
  ensure_binary h2 fs1 = (inr (BINARY_PATH h), fs1, []) ∧
  ∃ image perm,
    fs1 !! BINARY_PATH h = Some (File image perm) ∧
    main h2 fs1 =
      (inl (SystemExit (child h2 image (skipn 1 (argv h2)))), fs1,
       [Spawn (BINARY_PATH h :: skipn 1 (argv h2))]).
Proof.
  intros Hsys Hmod Habsent Hmain Hspawn.
  destruct (same_install_paths h h2 Hsys Hmod) as [Hpath Hwin].
  destruct (main_spawned_inv h fs r fs1 t1 Hmain Hspawn)
    as (fs1' & t0 & image & perm & Hens & _ & Hfile & Hexec & _ & <- & ->).
  assert (Hcached : ensure_binary h2 fs1 = (inr (BINARY_PATH h), fs1, [])).
  { rewrite <- Hpath. apply ensure_binary_cached. rewrite Hpath, Hfile. by eexists. }
  split; [ | split; [exact Hcached | ]].
  - rewrite ensure_binary_absent in Hens by exact Habsent.
    destruct (outcome (download_binary h fs)) as [e|[]] eqn:Hok; [discriminate | ].
    destruct (download_binary_ok_fetches_once h fs Hok) as (plat & Hplat & Hfetch).
    exists plat. split; [exact Hplat | ].
    assert (t0 = events (download_binary h fs)) as -> by congruence.
    rewrite fetches_app, Hfetch. reflexivity.
  - exists image, perm. split; [exact Hfile | ].
    rewrite (main_installed h2 fs1 _ fs1 [] Hcached).
    unfold subprocess_run. rewrite Hfile, Hwin, Hexec. reflexivity.
Qed.

Lemma second_run_skips_download_witness :
  fetches (events (main linux_release_host ∅)) =
    ["https://github.com/bivvy-dev/bivvy/releases/download/1.0.1/bivvy-linux-x64.tar.gz"] ∧
  main linux_release_host (final_fs (main linux_release_host ∅)) =
    (inl (SystemExit 0), final_fs (main linux_release_host ∅),
     [Spawn ["/site-packages/bivvy/bin/bivvy"; "--version"]]).
Proof.
  destruct (second_run_skips_download linux_release_host linux_release_host ∅
              (outcome (main linux_release_host ∅))
              (final_fs (main linux_release_host ∅))
              (events (main linux_release_host ∅))
              eq_refl eq_refl)
    as ((plat & Hplat & Hfetch) & _ & image & perm & Hfile & Hsecond).
  - apply lookup_empty.
  - apply run_eta.
  - vm_compute. discriminate.
  - split.
    + rewrite Hfetch. vm_compute in Hplat. injection Hplat as <-. reflexivity.
    + rewrite Hsecond. vm_compute in Hfile. injection Hfile as <- <-. reflexivity.
Defined.

(** * Further properties *)

(** ** get_platform *)

Lemma os_map_values s o : os_map !! s = Some o → (s, o) ∈ documented_os.
Proof. rewrite os_map_documented. apply elem_of_list_to_map_2. Qed.

Lemma arch_map_values s a : arch_map !! s = Some a → (s, a) ∈ documented_arch.
Proof. rewrite arch_map_documented. apply elem_of_list_to_map_2. Qed.

Lemma get_platform_ok_inv h tag :
  get_platform h = inr tag →
  ∃ os arch,
    (PyStr.lower (platform_system h), os) ∈ documented_os ∧
    (PyStr.lower (platform_machine h), arch) ∈ documented_arch ∧
    tag = os +:+ "-" +:+ arch.
Proof.
  unfold get_platform.
  destruct (os_map !! PyStr.lower (platform_system h)) as [os|] eqn:Hos;
    [ | discriminate].
  destruct (arch_map !! PyStr.lower (platform_machine h)) as [arch|] eqn:Harch;
    [ | simpl; rewrite orb_true_r; discriminate].
  destruct (negb _ || negb _); [discriminate | ].
  intros [= <-]. exists os, arch.
  split; [by apply os_map_values | split; [by apply arch_map_values | reflexivity]].
Qed.

(** X1. Whatever the host reports, a tag returned by [get_platform] is one
    of six: darwin, linux or windows, with x64 or arm64. *)
Theorem get_platform_tag_known h tag :
  get_platform h = inr tag → tag ∈ platform_tags.
Proof.
  intros Hok.
  destruct (get_platform_ok_inv h tag Hok) as (os & arch & Hos & Harch & ->).
  assert (Hos' : os ∈ ["darwin"; "linux"; "windows"]).
  { apply (list_elem_of_fmap_2 snd) in Hos. exact Hos. }
  assert (Harch' : arch ∈ ["x64"; "x64"; "arm64"; "arm64"]).
  { apply (list_elem_of_fmap_2 snd) in Harch. exact Harch. }
  clear Hos Harch Hok.
  rewrite !elem_of_cons, elem_of_nil in Hos'.
  rewrite !elem_of_cons, elem_of_nil in Harch'.
  destruct Hos' as [->|[->|[->|[]]]];
    destruct Harch' as [->|[->|[->|[->|[]]]]]; compute_done.
Qed.

Lemma get_platform_tag_known_witness : "linux-x64" ∈ platform_tags.
Proof. apply (get_platform_tag_known linux_x86_64_host). reflexivity. Defined.

Lemma lower_ascii_idemp c : PyStr.lower_ascii (PyStr.lower_ascii c) = PyStr.lower_ascii c.
Proof. destruct c as [[] [] [] [] [] [] [] []]; reflexivity. Qed.

Lemma lower_idemp s : PyStr.lower (PyStr.lower s) = PyStr.lower s.
Proof.
  induction s as [|c s IH]; [reflexivity | ].
  simpl. by rewrite lower_ascii_idemp, IH.
Qed.

(** X2. [get_platform] does not see the case of what the host reports: a
    host reporting the lower-cased strings gets the same tag, or the same
    error with the same message. *)
Theorem get_platform_ignores_case h h' :
  platform_system h' = PyStr.lower (platform_system h) →
  platform_machine h' = PyStr.lower (platform_machine h) →
  get_platform h' = get_platform h.
Proof.
  intros Hsys Hmach. unfold get_platform.
  by rewrite Hsys, Hmach, !lower_idemp.
Qed.

Lemma get_platform_ignores_case_witness :
  get_platform darwin_lowercase_host = get_platform darwin_arm64_host.
Proof.
  apply (get_platform_ignores_case darwin_arm64_host darwin_lowercase_host);
    reflexivity.
Defined.

(** ** How download_binary fails and what it does *)

(** X3. How [download_binary] fails before it reads the archive.  On an
    unsupported platform it raises at once: nothing is printed, no
    directory is made, nothing is fetched.  If a regular file sits where
    the cache directory should be, it raises FileExistsError after the
    announcement and before any fetch.  If the fetch fails, or the bytes
    served are no gzip-tar archive, the cache directory has been made, the
    fetch is the last action, and the error is that of the fetch, or
    ReadError. *)
Theorem download_binary_failure_modes h fs :
  (∀ e, get_platform h = inl e → download_binary h fs = (inl e, fs, [])) ∧
  (∀ plat image perm,
     get_platform h = inr plat →
     fs !! BINARY_DIR h = Some (File image perm) →
     download_binary h fs =
       (inl (FileExistsError (BINARY_DIR h)), fs,
        [Stdout ("Downloading bivvy from " +:+ artifact_url plat)])) ∧
  (∀ plat e,
     get_platform h = inr plat → cache_dir_usable h fs →
     urlopen h (artifact_url plat) = inl e →
     download_binary h fs =
       (inl e, with_cache_dir h fs,
        [Stdout ("Downloading bivvy from " +:+ artifact_url plat);
         Fetch (artifact_url plat)])) ∧
  (∀ plat,
     get_platform h = inr plat → cache_dir_usable h fs →
     urlopen h (artifact_url plat) = inr Garbage →
     download_binary h fs =
       (inl ReadError, with_cache_dir h fs,
        [Stdout ("Downloading bivvy from " +:+ artifact_url plat);
         Fetch (artifact_url plat)])).
Proof.
  split; [intros e; apply download_binary_unsupported | ].
  split; [intros plat image perm; apply download_binary_dir_blocked | ].
  split; [intros plat e; apply download_binary_fetch_failed | ].
  intros plat. apply download_binary_unreadable.
Qed.

Lemma download_binary_failure_modes_witness :
  download_binary freebsd_host ∅ =
    (inl (RuntimeError "Unsupported platform: freebsd-amd64"), ∅, []) ∧
  download_binary linux_x86_64_host
      (<["/site-packages/bivvy/bin" := File "not a directory" 420]> ∅) =
    (inl (FileExistsError "/site-packages/bivvy/bin"),
     <["/site-packages/bivvy/bin" := File "not a directory" 420]> ∅,
     [Stdout "Downloading bivvy from https://github.com/bivvy-dev/bivvy/releases/download/1.0.1/bivvy-linux-x64.tar.gz"]) ∧
  download_binary linux_x86_64_host ∅ =
    (inl (URLError "offline"), with_cache_dir linux_x86_64_host ∅,
     [Stdout "Downloading bivvy from https://github.com/bivvy-dev/bivvy/releases/download/1.0.1/bivvy-linux-x64.tar.gz";
      Fetch "https://github.com/bivvy-dev/bivvy/releases/download/1.0.1/bivvy-linux-x64.tar.gz"]) ∧
  download_binary linux_garbage_host ∅ =
    (inl ReadError, with_cache_dir linux_garbage_host ∅,
     [Stdout "Downloading bivvy from https://github.com/bivvy-dev/bivvy/releases/download/1.0.1/bivvy-linux-x64.tar.gz";
      Fetch "https://github.com/bivvy-dev/bivvy/releases/download/1.0.1/bivvy-linux-x64.tar.gz"]).
Proof.
  split; [ | split; [ | split]].
  - apply (proj1 (download_binary_failure_modes freebsd_host ∅)). reflexivity.
  - apply (proj1 (proj2 (download_binary_failure_modes linux_x86_64_host _))
             "linux-x64" "not a directory" 420); reflexivity.
  - apply (proj1 (proj2 (proj2 (download_binary_failure_modes linux_x86_64_host ∅)))
             "linux-x64" (URLError "offline"));
      [reflexivity | apply cache_dir_usable_empty | reflexivity].
  - apply (proj2 (proj2 (proj2 (download_binary_failure_modes linux_garbage_host ∅)))
             "linux-x64");
      [reflexivity | apply cache_dir_usable_empty | reflexivity].
Defined.

(** X4. In any run, [download_binary] fetches at most once, and only the
    artifact of the resolved platform; it fetches nothing unless the
    platform is supported and the cache directory could be made. *)
Theorem download_binary_fetches_at_most_once h fs :
  fetches (events (download_binary h fs)) = [] ∨
  ∃ plat,
    get_platform h = inr plat ∧ cache_dir_usable h fs ∧
    fetches (events (download_binary h fs)) = [artifact_url plat].
Proof.
  destruct (download_binary_shape h fs)
    as [[-> _]|(plat & Hplat & [[-> _]|(Huse & ms & loop & post & -> & Hloop & _ & Hpost)])];
    [by left | by left | right].
  exists plat. split; [exact Hplat | ]. split; [exact Huse | ].
  rewrite !fetches_app, (unpacks_no_fetch h ms loop Hloop).
  destruct Hpost as [[-> _]|[[->| ->] _]]; reflexivity.
Qed.

Lemma regular_binaries_release : regular_binaries linux_release_host.
Proof.
  intros ms (plat & _ & Hopen). injection Hopen as <-.
  repeat constructor.
Qed.

(** X5. When every entry named bivvy of the archive served is a regular
    file, then in any run of [download_binary] every unpacking goes to the
    cache path and writes the content of one of those entries: an entry
    with another name is never written. *)
Theorem download_binary_unpacks_only_binary h fs p i :
  regular_binaries h →
  (p, i) ∈ extractions (events (download_binary h fs)) →
  p = BINARY_PATH h ∧
  ∃ plat ms m,
    get_platform h = inr plat ∧
    urlopen h (artifact_url plat) = inr (GzipTar ms) ∧
    m ∈ ms ∧ name m = "bivvy" ∧ type_ m = REGTYPE ∧ data m = i.
Proof.
  intros Hreg.
  destruct (download_binary_shape h fs)
    as [[-> _]|(plat & Hplat & [[-> _]|(Huse & ms & loop & post & -> & Hloop & Hserved & Hpost)])].
  - intros Hin. by apply elem_of_nil in Hin.
  - intros Hin. by apply elem_of_nil in Hin.
  - rewrite !extractions_app.
    assert (Hpre : extractions [announce plat; Fetch (artifact_url plat)] = [])
      by reflexivity.
    assert (Hpost' : extractions post = [])
      by (destruct Hpost as [[-> _]|[[->| ->] _]]; reflexivity).
    rewrite Hpre, Hpost', app_nil_l, app_nil_r. intros Hin.
    destruct (unpacks_extractions h ms loop p i Hloop Hin) as (-> & m & Hm & Hname & Hdata).
    split; [reflexivity | ].
    destruct Hserved as [->|Hserved]; [by apply elem_of_nil in Hin | ].
    exists plat, ms, m. repeat split; try done.
    assert (Hmatch : m ∈ matching ms) by (by apply list_elem_of_filter).
    pose proof (Hreg ms (ex_intro _ plat (conj Hplat Hserved))) as Hall.
    rewrite Forall_forall in Hall. by apply Hall.
Qed.

Lemma download_binary_unpacks_only_binary_witness :
  "/site-packages/bivvy/bin/bivvy" = BINARY_PATH linux_release_host ∧
  ∃ plat ms m,
    get_platform linux_release_host = inr plat ∧
    urlopen linux_release_host (artifact_url plat) = inr (GzipTar ms) ∧
    m ∈ ms ∧ name m = "bivvy" ∧ type_ m = REGTYPE ∧ data m = "ELF-bivvy-1.0.1".
Proof.
  apply (download_binary_unpacks_only_binary linux_release_host ∅).
  - exact regular_binaries_release.
  - vm_compute. left.
Defined.

(** X6. [download_binary] prints the line bivvy installed successfully
    exactly in the runs in which it returns normally. *)
Theorem download_binary_success_line h fs :
  Stdout "bivvy installed successfully" ∈ events (download_binary h fs) ↔
  outcome (download_binary h fs) = inr tt.
Proof.
  fold installed_line.
  destruct (download_binary_shape h fs)
    as [[Hev [e He]]|(plat & Hplat & [[Hev Hout]|(Huse & ms & loop & post & Hev & Hloop & _ & Hpost)])].
  - rewrite Hev, (download_binary_unsupported h fs e He). cbn [outcome fst].
    split; [intros Hin; by apply elem_of_nil in Hin | discriminate].
  - rewrite Hev, Hout. split; [ | discriminate].
    rewrite elem_of_cons, elem_of_nil. intros [Heq|[]]. discriminate.
  - rewrite Hev. pose proof (unpacks_no_success_line h ms loop Hloop) as Hnot.
    destruct Hpost as [[-> [e ->]]|[Hpost ->]].
    + split; [ | discriminate]. rewrite app_nil_r.
      rewrite elem_of_app, !elem_of_cons, elem_of_nil.
      intros [[Heq|[Heq|[]]]|Hin]; [discriminate | discriminate | by destruct Hnot].
    + split; [reflexivity | intros _].
      rewrite !elem_of_app. right. right.
      destruct Hpost as [->| ->]; [left | right; left].
Qed.

Lemma download_binary_success_line_witness :
  Stdout "bivvy installed successfully" ∈ events (download_binary linux_release_host ∅).
Proof.
  apply (proj2 (download_binary_success_line linux_release_host ∅)).
  vm_compute. reflexivity.
Defined.

(** ** What the install path leaves alone *)

Lemma extract_member_frame h m fs p :
  p ≠ BINARY_PATH h →
  (name m = "bivvy" → type_ m = REGTYPE ∨ type_ m = DIRTYPE) →
  final_fs (extract_member h m fs) !! p = fs !! p.
Proof.
  intros Hne Hplain. unfold extract_member.
  destruct (String.eqb_spec (name m) "bivvy") as [Hname|Hname]; [ | reflexivity].
  unfold tar_extract. rewrite extract_target.
  cbn [type_ buffered data mode set_name]. cbv zeta.
  destruct (Hplain Hname) as [-> | ->];
    repeat match goal with
           | |- context [match ?x with _ => _ end] => destruct x
           end;
    unfold final_fs; simpl; try reflexivity; by apply lookup_insert_ne.
Qed.

Lemma loop_frame h ms fs p :
  p ≠ BINARY_PATH h →
  Forall (λ m, type_ m = REGTYPE ∨ type_ m = DIRTYPE) (matching ms) →
  final_fs (for_each ms (extract_member h) fs) !! p = fs !! p.
Proof.
  intros Hne. revert fs. induction ms as [|m ms IH]; intros fs Hall; [reflexivity | ].
  unfold matching in Hall. rewrite filter_cons in Hall. fold (matching ms) in Hall.
  assert (Hhead : name m = "bivvy" → type_ m = REGTYPE ∨ type_ m = DIRTYPE).
  { intros Hname. rewrite decide_True in Hall by exact Hname.
    by apply Forall_cons_1 in Hall as [? _]. }
  assert (Hrest : Forall (λ m, type_ m = REGTYPE ∨ type_ m = DIRTYPE) (matching ms)).
  { destruct (decide (name m = "bivvy")); [by apply Forall_cons_1 in Hall as [_ ?] | done]. }
  simpl for_each. unfold bind.
  pose proof (extract_member_frame h m fs p Hne Hhead) as Hm.
  destruct (extract_member h m fs) as [[[e|[]] fs1] t1]; [exact Hm | ].
  specialize (IH fs1 Hrest).
  destruct (for_each ms (extract_member h) fs1) as [[r fs2] t2].
  unfold final_fs in *. simpl in *. congruence.
Qed.

Lemma finish_frame h fs p :
  p ≠ BINARY_PATH h → final_fs (finish h fs) !! p = fs !! p.
Proof.
  intros Hne. unfold finish, bind, chmod, print, emit.
  destruct (negb (is_win32 h)); [ | reflexivity].
  destruct (fs !! BINARY_PATH h) as [[|image perm]|]; unfold final_fs; simpl;
    try reflexivity.
  by apply lookup_insert_ne.
Qed.

Lemma with_cache_dir_frame h fs p :
  p ≠ BINARY_DIR h → with_cache_dir h fs !! p = fs !! p.
Proof.
  intros Hne. unfold with_cache_dir.
  destruct (fs !! BINARY_DIR h); [reflexivity | by apply lookup_insert_ne].
Qed.

Lemma download_binary_frame h fs p :
  plain_binaries h →
  p ≠ BINARY_DIR h → p ≠ BINARY_PATH h →
  final_fs (download_binary h fs) !! p = fs !! p.
Proof.
  intros Hplain Hdir Hpath.
  destruct (get_platform h) as [e|plat] eqn:Hplat.
  { by rewrite (download_binary_unsupported h fs e Hplat). }
  destruct (cache_dir_usable_dec h fs) as [Huse|(image & perm & Hblocked)].
  2:{ by rewrite (download_binary_dir_blocked h fs plat image perm Hplat Hblocked). }
  destruct (urlopen h (artifact_url plat)) as [e|[ms| |]] eqn:Hopen.
  - rewrite (download_binary_fetch_failed h fs plat e Hplat Huse Hopen).
    by apply with_cache_dir_frame.
  - rewrite (download_binary_opened h fs plat ms Hplat Huse Hopen).
    assert (Hall : Forall (λ m, type_ m = REGTYPE ∨ type_ m = DIRTYPE) (matching ms)).
    { apply Hplain. by exists plat. }
    pose proof (loop_frame h ms (with_cache_dir h fs) p Hpath Hall) as Hloop.
    rewrite with_cache_dir_frame in Hloop by exact Hdir.
    destruct (for_each ms (extract_member h) (with_cache_dir h fs))
      as [[[e|[]] fs2] t2]; cbn [final_fs fst snd] in *; [exact Hloop | ].
    rewrite <- Hloop. by apply finish_frame.
  - rewrite (download_binary_unreadable h fs plat Hplat Huse Hopen).
    by apply with_cache_dir_frame.
  - rewrite (download_binary_truncated h fs plat Hplat Huse Hopen).
    by apply with_cache_dir_frame.
Qed.

Lemma prefix_of_app s t : PyStr.prefix_of s (s +:+ t) = true.
Proof.
  induction s as [|c s IH]; [reflexivity | ].
  simpl. by rewrite Ascii.eqb_refl, IH.
Qed.

Lemma prefix_of_refl s : PyStr.prefix_of s s = true.
Proof.
  induction s as [|c s IH]; [reflexivity | ].
  simpl. by rewrite Ascii.eqb_refl, IH.
Qed.

Lemma plain_binaries_release : plain_binaries linux_release_host.
Proof.
  intros ms (plat & _ & Hopen). injection Hopen as <-.
  repeat constructor.
Qed.

(** X7. In a file system without links, and when no entry named bivvy of
    the archive served is a link, a fifo or a device, [ensure_binary], and
    with it [download_binary], changes nothing outside the bin directory
    beside the module: however the run ends, every path that does not start
    with the path of that directory has the entry it had before. *)
Theorem ensure_binary_touches_only_cache h fs p :
  plain_binaries h →
  PyStr.prefix_of (BINARY_DIR h) p = false →
  final_fs (ensure_binary h fs) !! p = fs !! p.
Proof.
  intros Hplain Hout.
  assert (Hdir : p ≠ BINARY_DIR h).
  { intros ->. by rewrite prefix_of_refl in Hout. }
  assert (Hpath : p ≠ BINARY_PATH h).
  { intros ->. unfold BINARY_PATH, path_join in Hout.
    by rewrite prefix_of_app in Hout. }
  destruct (fs !! BINARY_PATH h) as [n|] eqn:Hlook.
  - rewrite ensure_binary_cached by (by exists n). reflexivity.
  - rewrite ensure_binary_absent by exact Hlook. cbn [final_fs fst snd].
    by apply download_binary_frame.
Qed.

Lemma ensure_binary_touches_only_cache_witness :
  final_fs (ensure_binary linux_release_host
              (<["/usr/bin/bivvy" := File "another bivvy" 493]> ∅))
    !! "/usr/bin/bivvy" = Some (File "another bivvy" 493).
Proof.
  rewrite (ensure_binary_touches_only_cache linux_release_host _ "/usr/bin/bivvy"
             plain_binaries_release)
    by reflexivity.
  apply lookup_insert_eq.
Defined.

(** ** After ensure_binary *)

Lemma install_all_path h l fs :
  install_all h l fs !! BINARY_PATH h =
    match last l with
    | Some b => Some (File (data b) (mode b))
    | None => fs !! BINARY_PATH h
    end.
Proof.
  destruct (last l) as [b|] eqn:Hlast.
  - rewrite (install_all_last h l b fs Hlast). apply lookup_insert_eq.
  - apply last_None in Hlast. by subst l.
Qed.

Lemma extract_member_regular_inv h m fs fs1 t1 :
  (name m = "bivvy" → type_ m = REGTYPE) →
  extract_member h m fs = (inr tt, fs1, t1) →
  fs1 = install_all h (matching [m]) fs.
Proof.
  intros Hreg. unfold extract_member, matching. rewrite filter_cons, filter_nil.
  destruct (String.eqb_spec (name m) "bivvy") as [Hname|Hname].
  - rewrite decide_True by exact Hname.
    unfold tar_extract. rewrite extract_target.
    cbn [type_ buffered data mode set_name]. cbv zeta. rewrite (Hreg Hname).
    repeat match goal with
           | |- context [match ?x with _ => _ end] => destruct x
           end;
      intros [= <- _]; reflexivity.
  - rewrite decide_False by exact Hname. by intros [= <- _].
Qed.

Lemma loop_regular_inv h ms fs fs2 t2 :
  Forall (λ m, type_ m = REGTYPE) (matching ms) →
  for_each ms (extract_member h) fs = (inr tt, fs2, t2) →
  fs2 = install_all h (matching ms) fs.
Proof.
  revert fs t2. induction ms as [|m ms IH]; intros fs t2 Hall Hrun.
  { by injection Hrun as <- _. }
  unfold matching in Hall. rewrite filter_cons in Hall. fold (matching ms) in Hall.
  assert (Hhead : name m = "bivvy" → type_ m = REGTYPE).
  { intros Hname. rewrite decide_True in Hall by exact Hname.
    by apply Forall_cons_1 in Hall as [? _]. }
  assert (Hrest : Forall (λ m, type_ m = REGTYPE) (matching ms)).
  { destruct (decide (name m = "bivvy")); [by apply Forall_cons_1 in Hall as [_ ?] | done]. }
  simpl for_each in Hrun. unfold bind in Hrun.
  destruct (extract_member h m fs) as [[[e|[]] fs1] t1] eqn:Hm; [discriminate | ].
  destruct (for_each ms (extract_member h) fs1) as [[[e|[]] fs3] t3] eqn:Hloop;
    [discriminate | ].
  injection Hrun as <- _.
  rewrite (IH fs1 t3 Hrest Hloop).
  rewrite (extract_member_regular_inv h m fs fs1 t1 Hhead Hm).
  unfold matching. rewrite (filter_cons _ m ms), filter_cons, filter_nil.
  destruct (decide (name m = "bivvy")); reflexivity.
Qed.

Lemma finish_posix_ok h fs :
  is_win32 h = false →
  outcome (finish h fs) = inr tt →
  ∃ n, fs !! BINARY_PATH h = Some n ∧
       final_fs (finish h fs) !! BINARY_PATH h =
         Some (match n with Dir => Dir | File image _ => File image 493 end).
Proof.
  intros Hwin. unfold finish, bind, chmod, print, emit. rewrite Hwin. simpl.
  destruct (fs !! BINARY_PATH h) as [[|image perm]|] eqn:Hlook;
    unfold outcome, final_fs; simpl; [ | | discriminate]; intros _.
  - by exists Dir.
  - exists (File image perm). split; [reflexivity | apply lookup_insert_eq].
Qed.

Lemma download_binary_posix_present h fs :
  is_win32 h = false →
  outcome (download_binary h fs) = inr tt →
  is_Some (final_fs (download_binary h fs) !! BINARY_PATH h).
Proof.
  intros Hwin Hok.
  destruct (download_binary_ok_inv h fs Hok) as (plat & ms & Hplat & Huse & Hopen).
  rewrite (download_binary_opened h fs plat ms Hplat Huse Hopen) in Hok |- *.
  destruct (for_each ms (extract_member h) (with_cache_dir h fs))
    as [[[e|[]] fs2] t2]; [discriminate | ].
  change (outcome (finish h fs2) = inr tt) in Hok.
  change (is_Some (final_fs (finish h fs2) !! BINARY_PATH h)).
  destruct (finish_posix_ok h fs2 Hwin Hok) as (n & _ & Hfinal).
  rewrite Hfinal. by eexists.
Qed.

Lemma download_binary_posix_installed h fs :
  is_win32 h = false →
  regular_binaries h →
  fs !! BINARY_PATH h = None →
  outcome (download_binary h fs) = inr tt →
  ∃ image, final_fs (download_binary h fs) !! BINARY_PATH h = Some (File image 493).
Proof.
  intros Hwin Hreg Habsent Hok.
  destruct (download_binary_ok_inv h fs Hok) as (plat & ms & Hplat & Huse & Hopen).
  rewrite (download_binary_opened h fs plat ms Hplat Huse Hopen) in Hok |- *.
  assert (Hall : Forall (λ m, type_ m = REGTYPE) (matching ms)).
  { apply Hreg. by exists plat. }
  destruct (for_each ms (extract_member h) (with_cache_dir h fs))
    as [[[e|[]] fs2] t2] eqn:Hloop; [discriminate | ].
  change (outcome (finish h fs2) = inr tt) in Hok.
  change (∃ image, final_fs (finish h fs2) !! BINARY_PATH h = Some (File image 493)).
  pose proof (loop_regular_inv h ms _ fs2 t2 Hall Hloop) as ->.
  destruct (finish_posix_ok h _ Hwin Hok) as (n & Hn & Hfinal).
  rewrite Hfinal.
  rewrite install_all_path, with_cache_dir_path, Habsent in Hn.
  destruct (last (matching ms)) as [b|]; [ | discriminate].
  injection Hn as <-. by eexists.
Qed.

(** X8. Off Windows [ensure_binary] keeps the promise of its docstring:
    when it returns normally, something is at the cache path, and a second
    call right after returns the same path without any action.  When it
    had to download and every entry named bivvy of the archive served is a
    regular file, what is at the cache path is a regular file with
    permission bits 0755. *)
Theorem ensure_binary_posix_ensures h fs p fs1 t1 :
  is_win32 h = false →
  ensure_binary h fs = (inr p, fs1, t1) →
  is_Some (fs1 !! BINARY_PATH h) ∧
  (fs !! BINARY_PATH h = None → regular_binaries h →
   ∃ image, fs1 !! BINARY_PATH h = Some (File image 493)) ∧
  ensure_binary h fs1 = (inr p, fs1, []).
Proof.
  intros Hwin Hens.
  pose proof (ensure_binary_path h fs p fs1 t1 Hens) as ->.
  assert (Hthere : is_Some (fs1 !! BINARY_PATH h) ∧
                   (fs !! BINARY_PATH h = None → regular_binaries h →
                    ∃ image, fs1 !! BINARY_PATH h = Some (File image 493))).
  { destruct (fs !! BINARY_PATH h) as [n|] eqn:Hlook.
    - rewrite ensure_binary_cached in Hens by (by exists n).
      injection Hens as <- _. split; [by exists n | discriminate].
    - rewrite ensure_binary_absent in Hens by exact Hlook.
      destruct (outcome (download_binary h fs)) as [e|[]] eqn:Hok; [discriminate | ].
      injection Hens as <- _.
      split; [by apply download_binary_posix_present | ].
      intros _ Hreg. by apply download_binary_posix_installed. }
  destruct Hthere as [Hsome Hfile].
  split; [exact Hsome | ]. split; [exact Hfile | ].
  by apply ensure_binary_cached.
Qed.

Lemma ensure_binary_posix_ensures_witness :
  is_Some (final_fs (ensure_binary linux_release_host ∅) !! BINARY_PATH linux_release_host) ∧
  (∃ image, final_fs (ensure_binary linux_release_host ∅) !! BINARY_PATH linux_release_host
            = Some (File image 493)) ∧
  ensure_binary linux_release_host (final_fs (ensure_binary linux_release_host ∅)) =
    (inr "/site-packages/bivvy/bin/bivvy", final_fs (ensure_binary linux_release_host ∅), []).
Proof.
  destruct (ensure_binary_posix_ensures linux_release_host ∅
              "/site-packages/bivvy/bin/bivvy"
              (final_fs (ensure_binary linux_release_host ∅))
              (events (ensure_binary linux_release_host ∅)) eq_refl)
    as (Hsome & Hfile & Hagain).
  - vm_compute. reflexivity.
  - split; [exact Hsome | ]. split; [ | exact Hagain].
    apply Hfile; [apply lookup_empty | exact regular_binaries_release].
Defined.

(** ** main *)

(** X9. With an executable file at the cache path, [main] starts it at
    once and exits with its return code; nothing is printed, made or
    fetched, and neither the platform nor the network is consulted, so this
    holds on an unsupported platform and off line as well. *)
Theorem main_cached_launches_directly h fs image perm :
  fs !! BINARY_PATH h = Some (File image perm) →
  is_win32 h || Z.testbit perm 6 = true →
  main h fs =
    (inl (SystemExit (child h image (skipn 1 (argv h)))), fs,
     [Spawn (BINARY_PATH h :: skipn 1 (argv h))]).
Proof.
  intros Hfile Hexec.
  assert (Hens : ensure_binary h fs = (inr (BINARY_PATH h), fs, [])).
  { apply ensure_binary_cached. by eexists. }
  rewrite (main_installed h fs _ fs [] Hens).
  unfold subprocess_run. rewrite Hfile, Hexec. reflexivity.
Qed.

Lemma main_cached_launches_directly_witness :
  (∃ msg, get_platform freebsd_host = inl (RuntimeError msg)) ∧
  main freebsd_host linux_cached_fs =
    (inl (SystemExit 0), linux_cached_fs, [Spawn ["/site-packages/bivvy/bin/bivvy"]]).
Proof.
  split; [eexists; reflexivity | ].
  apply (main_cached_launches_directly freebsd_host linux_cached_fs "ELF-bivvy-1.0.1" 493).
  - vm_compute. reflexivity.
  - vm_compute. reflexivity.
Defined.

Lemma main_outcome_raises h fs : ∃ e, outcome (main h fs) = inl e.
Proof.
  destruct (ensure_binary h fs) as [[[e|p] fs1] t1] eqn:Hens.
  - rewrite (main_raise h fs e fs1 t1 Hens). by exists e.
  - rewrite (main_installed h fs p fs1 t1 Hens).
    destruct (outcome (subprocess_run h (p :: skipn 1 (argv h)) fs1)) as [e|code];
      by eexists.
Qed.

(** X10. [main] never returns normally: every run ends in an exception.
    It starts at most one child; if it started one, the command was the
    cache path followed by [sys.argv[1:]], the program started is the file
    at the cache path, and the exception is [SystemExit] with the return
    code of that program on those arguments. *)
Theorem main_always_raises h fs :
  (∃ e, outcome (main h fs) = inl e) ∧
  (spawns (events (main h fs)) = [] ∨
   ∃ image perm,
     final_fs (main h fs) !! BINARY_PATH h = Some (File image perm) ∧
     spawns (events (main h fs)) = [BINARY_PATH h :: skipn 1 (argv h)] ∧
     outcome (main h fs) = inl (SystemExit (child h image (skipn 1 (argv h))))).
Proof.
  split; [apply main_outcome_raises | ].
  destruct (spawns (events (main h fs))) as [|c cs] eqn:Hspawn; [by left | right].
  assert (Hne : spawns (events (main h fs)) ≠ []) by (rewrite Hspawn; discriminate).
  destruct (main_spawned_inv h fs _ _ _ (run_eta (main h fs)) Hne)
    as (fs1 & t1 & image & perm & _ & Hquiet & Hfile & _ & Hout & Hfs & Ht).
  exists image, perm. split; [by rewrite Hfs | ]. split; [ | exact Hout].
  rewrite <- Hspawn, Ht, spawns_app, Hquiet. reflexivity.
Qed.

(** ** When the extraction works, and when it cannot *)



Lemma for_each_unbuffered h ms fs b rest :
  matching ms = b :: rest →
  type_ b = REGTYPE → buffered b = false →
  for_each ms (extract_member h) fs = (inl UnsupportedOperation, fs, []).
Proof.
  intros Hfirst Htype Hbuf. revert fs.
  induction ms as [|m ms IH]; intros fs; [discriminate | ].
  unfold matching in Hfirst. rewrite filter_cons in Hfirst.
  fold (matching ms) in Hfirst.
  simpl for_each. unfold extract_member at 1.
  destruct (String.eqb_spec (name m) "bivvy") as [Hname|Hname].
  - rewrite decide_True in Hfirst by exact Hname. injection Hfirst as -> _.
    apply bind_raise. unfold tar_extract.
    cbn [type_ buffered data mode set_name]. cbv zeta.
    by rewrite Htype, Hbuf.
  - rewrite decide_False in Hfirst by exact Hname.
    erewrite bind_ok by reflexivity.
    rewrite (IH Hfirst fs). reflexivity.
Qed.

(** X12. When the first entry named bivvy of the archive is a regular file
    whose data the stream no longer holds, as it is for a binary of more
    than a few kilobytes, [download_binary] raises
    [io.UnsupportedOperation] at the first extraction: after the fetch
    nothing more is done, no file is written, no permission is set and the
    success line is not printed, and the cache path is as it was. *)
Theorem download_binary_unbuffered_fails h fs plat ms b rest :
  get_platform h = inr plat →
  cache_dir_usable h fs →
  urlopen h (artifact_url plat) = inr (GzipTar ms) →
  matching ms = b :: rest →
  type_ b = REGTYPE →
  buffered b = false →
  download_binary h fs =
    (inl UnsupportedOperation, with_cache_dir h fs,
     [announce plat; Fetch (artifact_url plat)]) ∧
  final_fs (download_binary h fs) !! BINARY_PATH h = fs !! BINARY_PATH h.
Proof.
  intros Hplat Huse Hopen Hfirst Htype Hbuf.
  assert (Hrun : download_binary h fs =
    (inl UnsupportedOperation, with_cache_dir h fs,
     [announce plat; Fetch (artifact_url plat)])).
  { rewrite (download_binary_opened h fs plat ms Hplat Huse Hopen).
    by rewrite (for_each_unbuffered h ms _ b rest Hfirst Htype Hbuf). }
  split; [exact Hrun | ].
  rewrite Hrun. cbn [final_fs fst snd]. apply with_cache_dir_path.
Qed.

Lemma download_binary_unbuffered_fails_witness :
  download_binary linux_large_binary_host ∅ =
    (inl UnsupportedOperation, with_cache_dir linux_large_binary_host ∅,
     [announce "linux-x64"; Fetch (artifact_url "linux-x64")]) ∧
  final_fs (download_binary linux_large_binary_host ∅)
    !! BINARY_PATH linux_large_binary_host = None.
Proof.
  destruct (download_binary_unbuffered_fails linux_large_binary_host ∅ "linux-x64"
              [license_entry; large_binary_entry; readme_entry] large_binary_entry []
              eq_refl (cache_dir_usable_empty _) eq_refl eq_refl eq_refl eq_refl)
    as [Hrun Hpath].
  split; [exact Hrun | ]. rewrite Hpath. apply lookup_empty.
Defined.
